(** * SovChain DoS-resilience simulator: admission control and queue model

    A shallow embedding of [simulations/dos_resilience.py] (and the parts of
    [simulations/config.py] it reads), with the properties of its
    specification proved about the embedding.

    Modelling choices.
    - Python [float] is IEEE 754 binary64: Rocq's primitive [float], with the
      same operations and comparisons.  A Python literal such as [0.95] and
      the Rocq literal denote the same binary64 value (the closest one).
    - Python [int] is [Z]; a Poisson count is [N].
    - Python exceptions are the [Raise] outcome of a state-and-error monad.
    - The numpy generator is an external collaborator: the class
      [RandomSource] lists the draws the simulator takes from it; every
      definition and theorem is parametric in its implementation.
    - [dict] is stdpp's [gmap]; identity strings are built as the f-strings
      build them.
    - Every definition is a function of its arguments and of the state of
      the generator.  That two runs from the same seed agree is therefore a
      fact of the embedding, not a theorem about the program, and is not
      stated below. *)

From Stdlib Require Import ZArith Lia List Floats.
From Stdlib Require Uint63.
From stdpp Require Import base option list gmap strings pretty.

Set Warnings "-inexact-float".

Local Open Scope Z_scope.

(** ** Python numerics *)

Module Py.

Inductive exn : Set :=
  | ZeroDivisionError
  | ValueError
  | OverflowError.

(** The result of running a piece of the program: a value, a Python
    exception, or (for the [while] loop only) the iteration budget of the
    model used up before the loop condition turned false. *)
Inductive outcome (A : Type) : Type :=
  | Ok (a : A)
  | Raise (e : exn)
  | OutOfFuel.
Arguments Ok {A} a.
Arguments Raise {A} e.
Arguments OutOfFuel {A}.

(** [float(z)]: the nearest binary64 (ties to even), [OverflowError] when
    it is out of range. *)
Definition float_of_Z (z : Z) : float :=
  SF2Prim (binary_normalize prec emax z 0 false).

Definition to_float (z : Z) : outcome float :=
  let f := float_of_Z z in
  if is_infinity f then Raise OverflowError else Ok f.

(** [x / y] on floats: Python raises where IEEE would return an infinity or
    a NaN for a zero divisor ([-0.0] included). *)
Definition truediv (x y : float) : outcome float :=
  if (y =? 0)%float then Raise ZeroDivisionError else Ok (x / y)%float.

(** [a / b] on ints.  Python rounds the exact quotient once; dividing the
    converted operands is the same value when both are below [2^53] in
    magnitude, as the queue depth and every capacity of interest are. *)
Definition int_truediv (a b : Z) : outcome float :=
  if (b =? 0)%Z then Raise ZeroDivisionError
  else
    match to_float a, to_float b with
    | Ok x, Ok y => Ok (x / y)%float
    | _, _ => Raise OverflowError
    end.

(** [min(a, b)] and [max(a, b)] on two arguments: the first one unless the
    second is strictly smaller (larger). *)
Definition min (a b : float) : float := if (b <? a)%float then b else a.
Definition max (a b : float) : float := if (a <? b)%float then b else a.

(** [int(x)]: truncation toward zero; [ValueError] on NaN, [OverflowError]
    on an infinity. *)
Definition int (x : float) : outcome Z :=
  match Prim2SF x with
  | S754_zero _ => Ok 0
  | S754_infinity _ => Raise OverflowError
  | S754_nan => Raise ValueError
  | S754_finite s m e =>
      let a := Z.shiftl (Z.pos m) e in
      Ok (if s then - a else a)
  end.

End Py.
Export Py.

(** ** The state-and-error monad

    [M G St A]: a computation over the generator state [G] and the mutable
    program state [St], returning an [A] or raising. *)

Definition M (G St A : Type) : Type := St -> G -> outcome (A * St * G).

Section monad.
Context {G St : Type}.

Definition ret {A} (a : A) : M G St A := fun s g => Ok (a, s, g).

Definition bind {A B} (m : M G St A) (k : A -> M G St B) : M G St B :=
  fun s g =>
    match m s g with
    | Ok (a, s', g') => k a s' g'
    | Raise e => Raise e
    | OutOfFuel => OutOfFuel
    end.

Definition get : M G St St := fun s g => Ok (s, s, g).
Definition put (s : St) : M G St unit := fun _ g => Ok (tt, s, g).
Definition modify (f : St -> St) : M G St unit := fun s g => Ok (tt, f s, g).

(** A value computed by an expression that may raise. *)
Definition lift {A} (o : outcome A) : M G St A :=
  fun s g =>
    match o with
    | Ok a => Ok (a, s, g)
    | Raise e => Raise e
    | OutOfFuel => OutOfFuel
    end.

(** A draw from the generator: the program state is untouched. *)
Definition draw {A} (d : G -> outcome (A * G)) : M G St A :=
  fun s g =>
    match d g with
    | Ok (a, g') => Ok (a, s, g')
    | Raise e => Raise e
    | OutOfFuel => OutOfFuel
    end.

(** [for i in range(n): body], collecting what each iteration returns. *)
Fixpoint for_range {A} (n : nat) (body : M G St A) : M G St (list A) :=
  match n with
  | O => ret []
  | S n' =>
      bind body (fun a => bind (for_range n' body) (fun l => ret (a :: l)))
  end.
End monad.

(** Running a computation on a component [T] of the state [St]. *)
Definition zoom {G St T A} (proj : St -> T) (upd : T -> St -> St)
    (m : M G T A) : M G St A :=
  fun s g =>
    match m (proj s) g with
    | Ok (a, t, g') => Ok (a, upd t s, g')
    | Raise e => Raise e
    | OutOfFuel => OutOfFuel
    end.

Declare Scope monad_scope.
Delimit Scope monad_scope with M.
Notation "x <- m ;; k" := (bind m (fun x => k))
  (at level 100, m at next level, right associativity) : monad_scope.
Notation "m ;;; k" := (bind m (fun _ => k))
  (at level 100, right associativity) : monad_scope.
Local Open Scope monad_scope.

(** ** The random source (numpy's [Generator], external)

    One field per method the simulator calls.  A draw returns its value and
    the advanced generator state, or raises (numpy rejects, for instance, a
    negative Poisson rate). *)

Class RandomSource (G : Type) : Type := {
  default_rng : Z -> G;
  rng_random : G -> outcome (float * G);
  rng_poisson : float -> G -> outcome (N * G);
  rng_integers : Z -> G -> outcome (Z * G);
  rng_choice : list Z -> list float -> G -> outcome (Z * G);
  rng_normal : float -> float -> G -> outcome (float * G);
}.

(** ** [config.py] *)

Module config.

Definition RANDOM_SEED : Z := 42.

Record DoSParams : Set := {
  target_tps : Z;
  tier0_daily_quota : Z;
  tier1_daily_quota : Z;
  rate_limit_per_sec : Z;
  elevated_threshold : float;
  high_threshold : float;
  critical_threshold : float;
}.

Definition DOS_PARAMS : DoSParams := {|
  target_tps := 15000;
  tier0_daily_quota := 10;
  tier1_daily_quota := 50;
  rate_limit_per_sec := 5;
  elevated_threshold := 0.60;
  high_threshold := 0.80;
  critical_threshold := 0.95;
|}.

(** [ECONOMIC_PARAMS.implied_avg_tps]:
    [annual_transactions / (365 * 24 * 3600)]. *)
Definition implied_avg_tps : float := (9.1e9 / float_of_Z (365 * 24 * 3600))%float.

Definition get_rng {G} `{RandomSource G} (seed : Z) : G := default_rng seed.

End config.

(** ** [dos_resilience.py]: scenarios and results *)

Module DoSScenario.
Record t : Set := {
  name : string;
  attack_tps : Z;
  description : string;
}.
End DoSScenario.

Definition DOS_SCENARIOS : list DoSScenario.t := [
  {| DoSScenario.name := "Baseline (no attack)";
     DoSScenario.attack_tps := 0;
     DoSScenario.description := "Normal operation" |};
  {| DoSScenario.name := "Moderate spam (50k/s)";
     DoSScenario.attack_tps := 50000;
     DoSScenario.description := "Distributed spam attack" |};
  {| DoSScenario.name := "Heavy spam (200k/s)";
     DoSScenario.attack_tps := 200000;
     DoSScenario.description := "Coordinated attack" |};
  {| DoSScenario.name := "Sustained flood (500k/s)";
     DoSScenario.attack_tps := 500000;
     DoSScenario.description := "State-level adversary" |}
].

Module DoSResult.
Record t : Set := {
  scenario : DoSScenario.t;
  simulation_duration_s : float;
  legitimate_offered_tps : float;
  attack_offered_tps : Z;
  legitimate_admitted : Z;
  legitimate_dropped : Z;
  attack_filtered : Z;
  legitimate_p99_ms : float;
}.

(** The [drop_rate] property. *)
Definition drop_rate (self : t) : outcome float :=
  let total := legitimate_admitted self + legitimate_dropped self in
  if total =? 0 then Ok 0%float
  else int_truediv (legitimate_dropped self) total.
End DoSResult.

(** ** [AdmissionController] *)

Module AdmissionController.

(** The attributes set by [__init__], except [self.rng]: the generator is
    the object the simulator also holds, so it is the generator component
    of the monad and not a copy inside the controller. *)
Record t : Type := {
  capacity_tps : Z;
  rate_limit : Z;
  identity_buckets : gmap string float;
  identity_last_access : gmap string float;
  current_load : float;
}.

Definition set_identity_last_access (m : gmap string float) (self : t) : t :=
  {| capacity_tps := capacity_tps self;
     rate_limit := rate_limit self;
     identity_buckets := identity_buckets self;
     identity_last_access := m;
     current_load := current_load self |}.

Section methods.
Context {G : Type} `{RandomSource G}.

(** The module global [DOS_PARAMS], read by [get_congestion_mode] at each
    call. *)
Variable params : config.DoSParams.

(** [__init__]: stores its arguments; [rng or get_rng()] takes the given
    generator, or a fresh one on the default seed. *)
Definition init (capacity_tps rate_limit_per_sec : Z) (rng : option G)
    : t * G :=
  ({| capacity_tps := capacity_tps;
      rate_limit := rate_limit_per_sec;
      identity_buckets := ∅;
      identity_last_access := ∅;
      current_load := 0 |},
   match rng with
   | Some g => g
   | None => config.get_rng config.RANDOM_SEED
   end).

Definition get_congestion_mode (load_fraction : float) : string :=
  if (load_fraction <? config.elevated_threshold params)%float then "normal"
  else if (load_fraction <? config.high_threshold params)%float then "elevated"
  else if (load_fraction <? config.critical_threshold params)%float then "high"
  else "critical".

(** The [if mode == ...] chain of [admit_transaction]: [Some r] when one
    of its [return] statements is reached with result [r], [None] when
    control falls through to the rate-limit check. *)
Definition mode_gate (mode : string) (tier : Z) (has_fee : bool)
    : M G t (option (bool * string)) :=
  if String.eqb mode "critical" then
    if (tier <? 2) || negb has_fee
    then ret (Some (false, "critical_mode_rejection"))
    else ret None
  else if String.eqb mode "high" then
    if tier =? 0 then ret (Some (false, "tier0_suspended"))
    else if negb has_fee then ret (Some (false, "fee_required"))
    else ret None
  else if String.eqb mode "elevated" then
    if (tier =? 0) && negb has_fee then
      u <- draw rng_random ;;
      if (u <? 0.5)%float then ret (Some (false, "tier0_throttled"))
      else ret None
    else ret None
  else ret None.

(** The rate-limit check: [1.0 / self.rate_limit] is evaluated only for
    an identity already in the dictionary. *)
Definition rate_limit_gate (identity : string) (timestamp : float)
    : M G t (option (bool * string)) :=
  self <- get ;;
  match identity_last_access self !! identity with
  | Some last =>
      let time_since_last := (timestamp - last)%float in
      r <- lift (to_float (rate_limit self)) ;;
      w <- lift (truediv 1.0 r) ;;
      if (time_since_last <? w)%float then ret (Some (false, "rate_limited"))
      else ret None
  | None => ret None
  end.

Definition admit_transaction (identity : string) (tier : Z) (has_fee : bool)
    (timestamp current_load_fraction : float) : M G t (bool * string) :=
  let mode := get_congestion_mode current_load_fraction in
  gate <- mode_gate mode tier has_fee ;;
  match gate with
  | Some r => ret r
  | None =>
      limited <- rate_limit_gate identity timestamp ;;
      match limited with
      | Some r => ret r
      | None =>
          modify (fun self =>
            set_identity_last_access
              (<[identity := timestamp]> (identity_last_access self)) self) ;;;
          ret (true, "admitted")
      end
  end.
End methods.

End AdmissionController.

(** ** [DoSSimulator] *)

Module DoSSimulator.

(** The attributes set by [__init__], except [self.rng] (the generator
    component of the monad; [simulate_scenario] hands the very same object
    to the controller it creates). *)
Record t : Set := {
  capacity_tps : Z;
  legitimate_tps : float;
}.

(** The local variables of [simulate_scenario] that the loop mutates. *)
Record locals : Type := {
  controller : AdmissionController.t;
  legitimate_admitted : Z;
  legitimate_dropped : Z;
  attack_filtered : Z;
  legitimate_latencies_ms : list float;
  current_time : float;
  queue_depth : Z;
}.

Definition set_controller (c : AdmissionController.t) (l : locals) : locals :=
  {| controller := c;
     legitimate_admitted := legitimate_admitted l;
     legitimate_dropped := legitimate_dropped l;
     attack_filtered := attack_filtered l;
     legitimate_latencies_ms := legitimate_latencies_ms l;
     current_time := current_time l;
     queue_depth := queue_depth l |}.

Definition set_legitimate_admitted (n : Z) (l : locals) : locals :=
  {| controller := controller l;
     legitimate_admitted := n;
     legitimate_dropped := legitimate_dropped l;
     attack_filtered := attack_filtered l;
     legitimate_latencies_ms := legitimate_latencies_ms l;
     current_time := current_time l;
     queue_depth := queue_depth l |}.

Definition set_legitimate_dropped (n : Z) (l : locals) : locals :=
  {| controller := controller l;
     legitimate_admitted := legitimate_admitted l;
     legitimate_dropped := n;
     attack_filtered := attack_filtered l;
     legitimate_latencies_ms := legitimate_latencies_ms l;
     current_time := current_time l;
     queue_depth := queue_depth l |}.

Definition set_attack_filtered (n : Z) (l : locals) : locals :=
  {| controller := controller l;
     legitimate_admitted := legitimate_admitted l;
     legitimate_dropped := legitimate_dropped l;
     attack_filtered := n;
     legitimate_latencies_ms := legitimate_latencies_ms l;
     current_time := current_time l;
     queue_depth := queue_depth l |}.

Definition set_legitimate_latencies_ms (xs : list float) (l : locals)
    : locals :=
  {| controller := controller l;
     legitimate_admitted := legitimate_admitted l;
     legitimate_dropped := legitimate_dropped l;
     attack_filtered := attack_filtered l;
     legitimate_latencies_ms := xs;
     current_time := current_time l;
     queue_depth := queue_depth l |}.

Definition set_current_time (x : float) (l : locals) : locals :=
  {| controller := controller l;
     legitimate_admitted := legitimate_admitted l;
     legitimate_dropped := legitimate_dropped l;
     attack_filtered := attack_filtered l;
     legitimate_latencies_ms := legitimate_latencies_ms l;
     current_time := x;
     queue_depth := queue_depth l |}.

Definition set_queue_depth (n : Z) (l : locals) : locals :=
  {| controller := controller l;
     legitimate_admitted := legitimate_admitted l;
     legitimate_dropped := legitimate_dropped l;
     attack_filtered := attack_filtered l;
     legitimate_latencies_ms := legitimate_latencies_ms l;
     current_time := current_time l;
     queue_depth := n |}.

(** What one pass of the [while] body drew and decided: the two Poisson
    counts and, per attack arrival in order, the [admitted] flag the
    controller returned.  The program keeps none of it; the log is what the
    statements about arrivals are phrased in. *)
Record step_log : Set := {
  n_legit : N;
  n_attack : N;
  attack_admitted : list bool;
}.

Definition max_queue : Z := 100000.

Section methods.
Context {G : Type} `{RandomSource G}.

Variable params : config.DoSParams.
(** [np.percentile], external. *)
Variable percentile : list float -> float -> float.

Definition init (capacity_tps : Z) (legitimate_tps : float) (seed : Z)
    : t * G :=
  ({| capacity_tps := capacity_tps; legitimate_tps := legitimate_tps |},
   config.get_rng seed).

Variable self : t.
Variable scenario : DoSScenario.t.
Variable duration_s : float.
Variable time_step_s : float.

Definition call_controller (identity : string) (tier : Z) (has_fee : bool)
    (load_fraction : float) : M G locals (bool * string) :=
  l <- get ;;
  zoom controller set_controller
    (AdmissionController.admit_transaction params identity tier has_fee
       (current_time l) load_fraction).

(** [has_fee = tier > 0 or self.rng.random() < 0.3]: [or] evaluates its
    right operand only when the left one is false. *)
Definition draw_has_fee (tier : Z) : M G locals bool :=
  if 0 <? tier then ret true
  else u <- draw rng_random ;; ret (u <? 0.3)%float.

(** The [if admitted: ... else: ...] statement of the legitimate loop. *)
Definition record_legit (admitted : bool) : M G locals unit :=
  if admitted then
    l <- get ;;
    if queue_depth l <? max_queue then
      modify (fun l => set_queue_depth (queue_depth l + 1) l) ;;;
      modify (fun l => set_legitimate_admitted (legitimate_admitted l + 1) l) ;;;
      l <- get ;;
      let base_latency := 371%float in
      q <- lift (int_truediv (queue_depth l) (capacity_tps self)) ;;
      let queue_latency := (q * 1000)%float in
      jitter <- draw (rng_normal 0 50) ;;
      let total_latency := (base_latency + queue_latency + jitter)%float in
      modify (fun l =>
        set_legitimate_latencies_ms
          (legitimate_latencies_ms l ++ [Py.max 100 total_latency]) l)
    else
      modify (fun l => set_legitimate_dropped (legitimate_dropped l + 1) l)
  else
    modify (fun l => set_legitimate_dropped (legitimate_dropped l + 1) l).

(** One pass of the body of [for i in range(n_legit)]. *)
Definition legit_arrival (load_fraction : float) : M G locals unit :=
  k <- draw (rng_integers 1000000) ;;
  let identity := "legit_" +:+ pretty k in
  tier <- draw (rng_choice [0; 1; 2; 3] [0.4; 0.3; 0.2; 0.1]%float) ;;
  has_fee <- draw_has_fee tier ;;
  r <- call_controller identity tier has_fee load_fraction ;;
  record_legit r.1.

(** The [if admitted: ... else: ...] statement of the attack loop. *)
Definition record_attack (admitted : bool) : M G locals unit :=
  if admitted then
    modify (fun l => set_queue_depth (Z.min (queue_depth l + 1) max_queue) l)
  else
    modify (fun l => set_attack_filtered (attack_filtered l + 1) l).

(** One pass of the body of [for i in range(n_attack)]; returns the
    [admitted] flag. *)
Definition attack_arrival (load_fraction : float) : M G locals bool :=
  k <- draw (rng_integers 10000000) ;;
  let identity := "attack_" +:+ pretty k in
  r <- call_controller identity 0 false load_fraction ;;
  record_attack r.1 ;;;
  ret r.1.

(** [processed = min(queue_depth, int(self.capacity_tps * time_step_s))],
    [queue_depth = max(0, queue_depth - processed)]. *)
Definition drain : M G locals unit :=
  c <- lift (to_float (capacity_tps self)) ;;
  k <- lift (Py.int (c * time_step_s)) ;;
  modify (fun l =>
    let processed := Z.min (queue_depth l) k in
    set_queue_depth (Z.max 0 (queue_depth l - processed)) l).

Definition tick : M G locals unit :=
  modify (fun l => set_current_time (current_time l + time_step_s) l).

(** The body of the [while] loop. *)
Definition time_step (legit_arrival_rate attack_arrival_rate : float)
    : M G locals step_log :=
  n_legit <- draw (rng_poisson legit_arrival_rate) ;;
  n_attack <- draw (rng_poisson attack_arrival_rate) ;;
  l <- get ;;
  total <- lift (to_float (queue_depth l + Z.of_N n_legit + Z.of_N n_attack)) ;;
  offered_tps <- lift (truediv total time_step_s) ;;
  c <- lift (to_float (capacity_tps self)) ;;
  x <- lift (truediv offered_tps c) ;;
  let load_fraction := Py.min x 1.0 in
  for_range (N.to_nat n_legit) (legit_arrival load_fraction) ;;;
  flags <- for_range (N.to_nat n_attack) (attack_arrival load_fraction) ;;
  drain ;;;
  tick ;;;
  ret {| n_legit := n_legit; n_attack := n_attack;
         attack_admitted := flags |}.

(** [while current_time < duration_s: ...], at most [fuel] passes. *)
Fixpoint while_loop (fuel : nat)
    (legit_arrival_rate attack_arrival_rate : float)
    : M G locals (list step_log) :=
  fun l g =>
    if (current_time l <? duration_s)%float then
      match fuel with
      | O => OutOfFuel
      | S fuel' =>
          (log <- time_step legit_arrival_rate attack_arrival_rate ;;
           logs <- while_loop fuel' legit_arrival_rate attack_arrival_rate ;;
           ret (log :: logs)) l g
      end
    else Ok ([], l, g).

Definition initial_locals (c : AdmissionController.t) : locals :=
  {| controller := c;
     legitimate_admitted := 0;
     legitimate_dropped := 0;
     attack_filtered := 0;
     legitimate_latencies_ms := [];
     current_time := 0;
     queue_depth := 0 |}.

(** The default [rate_limit_per_sec] of [AdmissionController.__init__],
    fixed when the class is defined. *)
Definition default_rate_limit : Z :=
  config.rate_limit_per_sec config.DOS_PARAMS.

(** [simulate_scenario] up to the end of the loop: the log of the passes
    and the final locals. *)
Definition run (fuel : nat) (g : G)
    : outcome (list step_log * locals * G) :=
  let '(c, g) :=
    AdmissionController.init (capacity_tps self) default_rate_limit (Some g) in
  let legit_arrival_rate := (legitimate_tps self * time_step_s)%float in
  match to_float (DoSScenario.attack_tps scenario) with
  | Ok a =>
      let attack_arrival_rate := (a * time_step_s)%float in
      while_loop fuel legit_arrival_rate attack_arrival_rate
        (initial_locals c) g
  | Raise e => Raise e
  | OutOfFuel => OutOfFuel
  end.

Definition p99_latency (latencies : list float) : float :=
  match latencies with
  | [] => 0
  | _ :: _ => percentile latencies 99
  end.

Definition result_of (l : locals) : DoSResult.t :=
  {| DoSResult.scenario := scenario;
     DoSResult.simulation_duration_s := duration_s;
     DoSResult.legitimate_offered_tps := legitimate_tps self;
     DoSResult.attack_offered_tps := DoSScenario.attack_tps scenario;
     DoSResult.legitimate_admitted := legitimate_admitted l;
     DoSResult.legitimate_dropped := legitimate_dropped l;
     DoSResult.attack_filtered := attack_filtered l;
     DoSResult.legitimate_p99_ms := p99_latency (legitimate_latencies_ms l) |}.
End methods.

(** [simulate_scenario(scenario, duration_s, time_step_ms)]: the result and
    the generator as the run leaves it. *)
Definition simulate_scenario {G : Type} `{RandomSource G}
    (params : config.DoSParams) (percentile : list float -> float -> float)
    (fuel : nat) (self : t) (scenario : DoSScenario.t)
    (duration_s time_step_ms : float) (g : G) : outcome (DoSResult.t * G) :=
  let time_step_s := (time_step_ms / 1000.0)%float in
  match run params self scenario duration_s time_step_s fuel g with
  | Ok (_, l, g') => Ok (result_of percentile self scenario duration_s l, g')
  | Raise e => Raise e
  | OutOfFuel => OutOfFuel
  end.

End DoSSimulator.

(** ** Two implementations of the random source

    [Lcg] is a small linear congruential generator standing in for numpy's;
    [Counting] wraps any implementation and counts the draws taken.  The
    theorems below hold for every implementation; these two are what the
    concrete runs are evaluated on. *)

Module Lcg.

Definition modulus : Z := 2 ^ 31.
Definition next (x : Z) : Z := (x * 1103515245 + 12345) mod modulus.
Definition uniform (x : Z) : float :=
  (float_of_Z x / float_of_Z modulus)%float.

Definition random (x : Z) : outcome (float * Z) :=
  let x' := next x in Ok (uniform x', x').

Definition poisson (lam : float) (x : Z) : outcome (N * Z) :=
  if (lam <? 0)%float then Raise ValueError
  else
    let x' := next x in
    match Py.int (lam + uniform x') with
    | Ok k => Ok (Z.to_N k, x')
    | Raise e => Raise e
    | OutOfFuel => OutOfFuel
    end.

Definition integers (high : Z) (x : Z) : outcome (Z * Z) :=
  if high <=? 0 then Raise ValueError
  else let x' := next x in Ok (x' mod high, x').

Definition choice (a : list Z) (p : list float) (x : Z) : outcome (Z * Z) :=
  let x' := next x in
  match a !! Z.to_nat (x' mod Z.of_nat (length a)) with
  | Some v => Ok (v, x')
  | None => Raise ValueError
  end.

Definition normal (loc scale : float) (x : Z) : outcome (float * Z) :=
  let x' := next x in Ok ((loc + scale * (uniform x' - 0.5))%float, x').

#[global] Instance source : RandomSource Z := {|
  default_rng := fun seed => seed mod modulus;
  rng_random := random;
  rng_poisson := poisson;
  rng_integers := integers;
  rng_choice := choice;
  rng_normal := normal;
|}.

End Lcg.

Module Counting.

Definition counted {G A} (d : G -> outcome (A * G)) (c : G * nat)
    : outcome (A * (G * nat)) :=
  match d c.1 with
  | Ok (a, g') => Ok (a, (g', S c.2))
  | Raise e => Raise e
  | OutOfFuel => OutOfFuel
  end.

#[global] Instance source {G} `{RandomSource G} : RandomSource (G * nat) := {|
  default_rng := fun seed => (default_rng seed, O);
  rng_random := counted rng_random;
  rng_poisson := fun lam => counted (rng_poisson lam);
  rng_integers := fun high => counted (rng_integers high);
  rng_choice := fun a p => counted (rng_choice a p);
  rng_normal := fun loc scale => counted (rng_normal loc scale);
|}.

End Counting.

(** A stand-in for [np.percentile] in concrete runs: the largest sample. *)
Definition largest (xs : list float) (q : float) : float :=
  foldr Py.max neg_infinity xs.

(** ** Vocabulary of the statements *)

(** A binary64 that is not negative: a zero of either sign, a positive
    number or infinity, or a NaN (which [int] refuses). *)
Definition SFnonneg (x : spec_float) : Prop :=
  match x with
  | S754_zero _ | S754_nan => True
  | S754_infinity s | S754_finite s _ _ => s = false
  end.

(** Totals over the log of a run: the arrivals generated, and the attack
    arrivals the controller admitted. *)
Definition admitted_count (flags : list bool) : Z :=
  Z.of_nat (length (List.filter (fun b : bool => b) flags)).

Definition legit_arrivals (logs : list DoSSimulator.step_log) : Z :=
  foldr (fun s acc => Z.of_N (DoSSimulator.n_legit s) + acc) 0 logs.

Definition attack_arrivals (logs : list DoSSimulator.step_log) : Z :=
  foldr (fun s acc => Z.of_N (DoSSimulator.n_attack s) + acc) 0 logs.

Definition attacks_admitted (logs : list DoSSimulator.step_log) : Z :=
  foldr (fun s acc => admitted_count (DoSSimulator.attack_admitted s) + acc)
    0 logs.

Section visits.
Context {G : Type} `{RandomSource G}.
Variable params : config.DoSParams.
Variable self : DoSSimulator.t.
Variable time_step_s : float.

(** The states of the local variables a run passes through: the initial
    ones, and those left by each legitimate arrival, each attack arrival,
    each drain and each advance of the clock, whatever the generator
    held. *)
Inductive visits : DoSSimulator.locals -> Prop :=
  | visits_start c : visits (DoSSimulator.initial_locals c)
  | visits_legit load l (g g' : G) l' :
      visits l ->
      DoSSimulator.legit_arrival params self load l g = Ok (tt, l', g') ->
      visits l'
  | visits_attack load l (g g' : G) b l' :
      visits l ->
      DoSSimulator.attack_arrival params load l g = Ok (b, l', g') ->
      visits l'
  | visits_drain l (g g' : G) l' :
      visits l ->
      DoSSimulator.drain self time_step_s l g = Ok (tt, l', g') ->
      visits l'
  | visits_tick l (g g' : G) l' :
      visits l ->
      DoSSimulator.tick time_step_s l g = Ok (tt, l', g') ->
      visits l'.
End visits.

Section calls_between.
Context {G : Type} `{RandomSource G}.
Variable params : config.DoSParams.

(** The calls that may come between the two calls of a pair: the controller
    goes from [self1] to [self2] through any number of returning calls of
    [admit_transaction], with any generator states, none of which admits
    [identity] again (each is for another identity or is rejected). *)
Inductive calls_between identity self1 : AdmissionController.t -> Prop :=
  | calls_between_none : calls_between identity self1 self1
  | calls_between_call self2 self3 other tier has_fee timestamp load
      (g : G) b reason g' :
      calls_between identity self1 self2 ->
      AdmissionController.admit_transaction params other tier has_fee
        timestamp load self2 g = Ok ((b, reason), self3, g') ->
      other <> identity \/ b = false ->
      calls_between identity self1 self3.
End calls_between.

Section pass_chain.
Context {G : Type} `{RandomSource G}.
Variable params : config.DoSParams.
Variable self : DoSSimulator.t.
Variable duration_s time_step_s : float.
Variable legit_arrival_rate attack_arrival_rate : float.

(** The passes of the [while] loop of a run that completes, one after the
    other: each starts from the locals and the generator the one before it
    left, while the clock is below the duration, and yields its log. *)
Inductive pass_chain
    : DoSSimulator.locals -> G -> list DoSSimulator.step_log ->
      DoSSimulator.locals -> G -> Prop :=
  | pass_chain_end l g :
      (DoSSimulator.current_time l <? duration_s)%float = false ->
      pass_chain l g [] l g
  | pass_chain_pass l g log l1 g1 logs l' g' :
      (DoSSimulator.current_time l <? duration_s)%float = true ->
      DoSSimulator.time_step params self time_step_s
        legit_arrival_rate attack_arrival_rate l g = Ok (log, l1, g1) ->
      pass_chain l1 g1 logs l' g' ->
      pass_chain l g (log :: logs) l' g'.
End pass_chain.

(** What one legitimate arrival does to the locals other than the
    controller: it is buffered and counted as admitted, with one latency
    sample appended, or it is counted as dropped and nothing else moves. *)
Definition legit_effect (l l' : DoSSimulator.locals) : Prop :=
  DoSSimulator.attack_filtered l' = DoSSimulator.attack_filtered l /\
  DoSSimulator.current_time l' = DoSSimulator.current_time l /\
  ((DoSSimulator.queue_depth l < DoSSimulator.max_queue /\
    DoSSimulator.queue_depth l' = DoSSimulator.queue_depth l + 1 /\
    DoSSimulator.legitimate_admitted l'
      = DoSSimulator.legitimate_admitted l + 1 /\
    DoSSimulator.legitimate_dropped l' = DoSSimulator.legitimate_dropped l /\
    exists x, DoSSimulator.legitimate_latencies_ms l'
                = DoSSimulator.legitimate_latencies_ms l ++ [x])
   \/
   (DoSSimulator.queue_depth l' = DoSSimulator.queue_depth l /\
    DoSSimulator.legitimate_admitted l' = DoSSimulator.legitimate_admitted l /\
    DoSSimulator.legitimate_dropped l'
      = DoSSimulator.legitimate_dropped l + 1 /\
    DoSSimulator.legitimate_latencies_ms l'
      = DoSSimulator.legitimate_latencies_ms l)).

(** What one attack arrival does to the locals other than the controller,
    by the [admitted] flag: the queue depth moves up by one, capped, or the
    filter count moves up by one; the legitimate statistics never move. *)
Definition attack_effect (admitted : bool) (l l' : DoSSimulator.locals)
    : Prop :=
  DoSSimulator.legitimate_admitted l' = DoSSimulator.legitimate_admitted l /\
  DoSSimulator.legitimate_dropped l' = DoSSimulator.legitimate_dropped l /\
  DoSSimulator.legitimate_latencies_ms l'
    = DoSSimulator.legitimate_latencies_ms l /\
  DoSSimulator.current_time l' = DoSSimulator.current_time l /\
  if admitted then
    DoSSimulator.queue_depth l'
      = Z.min (DoSSimulator.queue_depth l + 1) DoSSimulator.max_queue /\
    DoSSimulator.attack_filtered l' = DoSSimulator.attack_filtered l
  else
    DoSSimulator.queue_depth l' = DoSSimulator.queue_depth l /\
    DoSSimulator.attack_filtered l' = DoSSimulator.attack_filtered l + 1.

(** The number of passes the [while] loop makes: the clock alone decides
    it.  [None] when more than [fuel] passes are needed. *)
Fixpoint passes (fuel : nat) (duration_s time_step_s t : float) (done : N)
    : option N :=
  if (t <? duration_s)%float then
    match fuel with
    | O => None
    | S fuel' =>
        passes fuel' duration_s time_step_s (t + time_step_s) (N.succ done)
    end
  else Some done.

(** ** Concrete inputs *)

Definition moderate_spam : DoSScenario.t :=
  {| DoSScenario.name := "Moderate spam (50k/s)";
     DoSScenario.attack_tps := 50000;
     DoSScenario.description := "Distributed spam attack" |}.

Definition baseline : DoSScenario.t :=
  {| DoSScenario.name := "Baseline (no attack)";
     DoSScenario.attack_tps := 0;
     DoSScenario.description := "Normal operation" |}.

(** A scenario as [main] builds it from [--attack-rates 1000]. *)
Definition light_spam : DoSScenario.t :=
  {| DoSScenario.name := "Attack @ 1,000/s";
     DoSScenario.attack_tps := 1000;
     DoSScenario.description := "Custom" |}.

(** A scenario as [main] builds it from [--attack-rates 8000]: with the
    default legitimate traffic it keeps the load in the elevated band. *)
Definition throttled_spam : DoSScenario.t :=
  {| DoSScenario.name := "Attack @ 8,000/s";
     DoSScenario.attack_tps := 8000;
     DoSScenario.description := "Custom" |}.

(** [DoSSimulator()] with its default arguments, on the [Lcg] source. *)
Definition default_simulator : DoSSimulator.t * Z :=
  DoSSimulator.init 15000 config.implied_avg_tps config.RANDOM_SEED.

(** [AdmissionController(rng=...)] with its default arguments. *)
Definition default_controller : AdmissionController.t * Z :=
  AdmissionController.init 15000 5 (Some 7).

(** * Properties *)

(** ** Floating-point order

    The comparisons of binary64 through their specification on
    [spec_float]: what the threshold chain of [get_congestion_mode] needs. *)

Ltac sf_cases :=
  simpl;
  repeat match goal with s : bool |- _ => destruct s end;
  simpl; try discriminate; try reflexivity;
  change (PosDef.Pos.compare_cont Eq) with Pos.compare;
  repeat match goal with
    | |- context [(?a ?= ?b)%Z] => destruct (Z.compare_spec a b); simpl
    | |- context [(?a ?= ?b)%positive] =>
        destruct (Pos.compare_spec a b); simpl
    end;
  try discriminate; try reflexivity; try lia.

Lemma SFleb_ltb_trans x y z :
  SFleb x y = true -> SFltb z x = true -> SFltb y z = false.
Proof.
  unfold SFleb, SFltb.
  destruct x as [sx|sx| |sx mx ex], y as [sy|sy| |sy my ey],
    z as [sz|sz| |sz mz ez]; sf_cases.
Qed.

Lemma SFleb_not_ltb x y : SFleb x y = true -> SFltb y x = false.
Proof.
  unfold SFleb, SFltb.
  destruct x as [sx|sx| |sx mx ex], y as [sy|sy| |sy my ey]; sf_cases.
Qed.

Lemma SFltb_trans x y z :
  SFltb x y = true -> SFltb y z = true -> SFltb x z = true.
Proof.
  unfold SFltb.
  destruct x as [sx|sx| |sx mx ex], y as [sy|sy| |sy my ey],
    z as [sz|sz| |sz mz ez]; sf_cases.
Qed.

Lemma float_leb_not_ltb (x y : float) :
  (x <=? y)%float = true -> (y <? x)%float = false.
Proof. rewrite leb_spec, ltb_spec. apply SFleb_not_ltb. Qed.

Lemma float_leb_ltb_trans (x y z : float) :
  (x <=? y)%float = true -> (z <? x)%float = true -> (y <? z)%float = false.
Proof. rewrite leb_spec, !ltb_spec. apply SFleb_ltb_trans. Qed.

Lemma float_ltb_trans (x y z : float) :
  (x <? y)%float = true -> (y <? z)%float = true -> (x <? z)%float = true.
Proof. rewrite !ltb_spec. apply SFltb_trans. Qed.

(** ** Inversion of monadic computations *)

Section monad_facts.
Context {G St : Type}.
Implicit Types (s : St) (g : G).

Lemma bind_Ok {A B} (m : M G St A) (k : A -> M G St B) s g b s' g' :
  bind m k s g = Ok (b, s', g') ->
  exists a s1 g1, m s g = Ok (a, s1, g1) /\ k a s1 g1 = Ok (b, s', g').
Proof.
  unfold bind. destruct (m s g) as [[[a s1] g1]|e|]; try discriminate.
  intros Hk. exists a, s1, g1. split; [reflexivity | exact Hk].
Qed.

Lemma bind_eq {A B} (m : M G St A) (k : A -> M G St B) s g a s1 g1 :
  m s g = Ok (a, s1, g1) -> bind m k s g = k a s1 g1.
Proof. unfold bind. intros ->. reflexivity. Qed.

Lemma ret_Ok {A} (a : A) s g b s' g' :
  ret a s g = Ok (b, s', g') -> b = a /\ s' = s /\ g' = g.
Proof. unfold ret. intros [= <- <- <-]. auto. Qed.

Lemma get_Ok s g b s' g' :
  get s g = Ok (b, s', g') -> b = s /\ s' = s /\ g' = g.
Proof. unfold get. intros [= <- <- <-]. auto. Qed.

Lemma modify_Ok (f : St -> St) s g b s' g' :
  modify f s g = Ok (b, s', g') -> s' = f s /\ g' = g.
Proof. unfold modify. intros [= _ <- <-]. auto. Qed.

Lemma lift_Ok {A} (o : outcome A) s g b s' g' :
  lift o s g = Ok (b, s', g') -> o = Ok b /\ s' = s /\ g' = g.
Proof. unfold lift. destruct o; intros [= <- <- <-]. auto. Qed.

Lemma draw_Ok {A} (d : G -> outcome (A * G)) s g b s' g' :
  draw d s g = Ok (b, s', g') -> d g = Ok (b, g') /\ s' = s.
Proof.
  unfold draw. destruct (d g) as [[a g1]|e|]; intros [= <- <- <-]. auto.
Qed.

Lemma zoom_Ok {T A} (proj : St -> T) (upd : T -> St -> St) (m : M G T A)
    s g b s' g' :
  zoom proj upd m s g = Ok (b, s', g') ->
  exists t, m (proj s) g = Ok (b, t, g') /\ s' = upd t s.
Proof.
  unfold zoom. destruct (m (proj s) g) as [[[a t] g1]|e|];
    intros [= <- <- <-]. eauto.
Qed.
End monad_facts.

(** Takes apart every hypothesis saying that a computation returned. *)
Ltac inv_M :=
  repeat match goal with
    | H : bind _ _ _ _ = Ok _ |- _ =>
        apply bind_Ok in H; destruct H as (? & ? & ? & ? & H)
    | H : ret _ _ _ = Ok _ |- _ =>
        apply ret_Ok in H; destruct H as (? & ? & ?); subst
    | H : get _ _ = Ok _ |- _ =>
        apply get_Ok in H; destruct H as (? & ? & ?); subst
    | H : modify _ _ _ = Ok _ |- _ =>
        apply modify_Ok in H; destruct H as (? & ?); subst
    | H : lift _ _ _ = Ok _ |- _ =>
        apply lift_Ok in H; destruct H as (? & ? & ?); subst
    | H : draw _ _ _ = Ok _ |- _ =>
        apply draw_Ok in H; destruct H as (? & ?); subst
    | H : zoom _ _ _ _ _ = Ok _ |- _ =>
        apply zoom_Ok in H; destruct H as (? & ? & ?); subst
    end.

(** ** The admission controller *)

Section admission.
Context {G : Type} `{RandomSource G}.
Variable params : config.DoSParams.
Import AdmissionController.

Implicit Types (self : AdmissionController.t) (g : G).

(** The mode gate never changes the controller, and what it returns early
    is a rejection. *)
Lemma mode_gate_Ok mode tier has_fee self g r self' g' :
  mode_gate mode tier has_fee self g = Ok (r, self', g') ->
  self' = self /\
  match r with
  | Some (b, reason) =>
      b = false /\
      reason ∈ ["critical_mode_rejection"; "tier0_suspended";
                "fee_required"; "tier0_throttled"]
  | None => True
  end.
Proof.
  unfold mode_gate. intros Hg.
  destruct (String.eqb mode "critical");
    [|destruct (String.eqb mode "high");
      [|destruct (String.eqb mode "elevated")]].
  - destruct ((tier <? 2) || negb has_fee); inv_M; split; auto.
    split; [reflexivity | set_solver].
  - destruct (tier =? 0); [|destruct (negb has_fee)]; inv_M; split; auto;
      (split; [reflexivity | set_solver]).
  - destruct ((tier =? 0) && negb has_fee); inv_M; [|split; auto].
    destruct (_ <? _)%float; inv_M; split; auto.
    split; [reflexivity | set_solver].
  - inv_M. split; auto.
Qed.

Lemma rate_limit_gate_Ok identity timestamp self g r self' g' :
  rate_limit_gate identity timestamp self g = Ok (r, self', g') ->
  self' = self /\ g' = g /\
  (r = None \/ r = Some (false, "rate_limited")).
Proof.
  unfold rate_limit_gate. intros Hg. inv_M.
  destruct (identity_last_access _ !! identity); inv_M.
  - destruct (_ <? _)%float; inv_M; auto.
  - auto.
Qed.
End admission.

Section admission_claims.
Context {G : Type} `{RandomSource G}.
Variable params : config.DoSParams.
Import AdmissionController.

Implicit Types (self : AdmissionController.t) (g : G).

(** An admitted call returns the reason ["admitted"] and writes the
    timestamp; any other returning call leaves the controller as it was. *)
Lemma admit_transaction_Ok identity tier has_fee timestamp load
    self g b reason self' g' :
  admit_transaction params identity tier has_fee timestamp load self g
    = Ok ((b, reason), self', g') ->
  (b = true /\ reason = "admitted" /\
   self' = set_identity_last_access
             (<[identity := timestamp]> (identity_last_access self)) self)
  \/ (b = false /\ reason <> "admitted" /\ self' = self).
Proof.
  unfold admit_transaction. intros Ha.
  apply bind_Ok in Ha. destruct Ha as (gate & s1 & g1 & Hg & Ha).
  apply mode_gate_Ok in Hg. destruct Hg as [-> Hr].
  destruct gate as [[b0 r0]|].
  - inv_M. destruct Hr as [-> Hin]. right.
    match goal with Hp : (_, _) = (_, _) |- _ => injection Hp as ? ?; subst end.
    repeat split; auto. intros ->. revert Hin. clear. rewrite !elem_of_cons, elem_of_nil.
    intuition discriminate.
  - apply bind_Ok in Ha. destruct Ha as (lim & s2 & g2 & Hl & Ha).
    apply rate_limit_gate_Ok in Hl. destruct Hl as (-> & -> & [-> | ->]);
      cbv beta iota in Ha; inv_M.
    + left. match goal with Hp : (_, _) = (_, _) |- _ =>
        injection Hp as ? ?; subst end. auto.
    + right. match goal with Hp : (_, _) = (_, _) |- _ =>
        injection Hp as ? ?; subst end. repeat split; auto.
Qed.

(** C6.  [admit_transaction] writes the per-identity state exactly on the
    admitting path: when it returns [(True, "admitted")] the dictionary is
    the old one with [identity] set to the call's timestamp, and on every
    rejecting return (by a congestion-mode rule or by the rate limit) the
    controller, its dictionary included, is exactly as before the call; the
    flag is [True] only together with the reason ["admitted"]. *)
Theorem admit_transaction_writes_iff_admitted identity tier has_fee
    timestamp load self g b reason self' g' :
  admit_transaction params identity tier has_fee timestamp load self g
    = Ok ((b, reason), self', g') ->
  (b = true <-> reason = "admitted") /\
  (if b
   then identity_last_access self'
          = <[identity := timestamp]> (identity_last_access self)
        /\ identity_last_access self' !! identity = Some timestamp
        /\ capacity_tps self' = capacity_tps self
        /\ rate_limit self' = rate_limit self
   else self' = self).
Proof.
  intros Ha. apply admit_transaction_Ok in Ha.
  destruct Ha as [(-> & -> & ->) | (-> & Hr & ->)].
  - split; [tauto|]. simpl. rewrite lookup_insert_eq. auto.
  - split; [|reflexivity]. split; [discriminate | contradiction].
Qed.

(** The threshold chain selects ["critical"] at and above the critical
    threshold when the thresholds increase strictly. *)
Lemma get_congestion_mode_critical load :
  (config.elevated_threshold params <? config.high_threshold params)%float
    = true ->
  (config.high_threshold params <? config.critical_threshold params)%float
    = true ->
  (config.critical_threshold params <=? load)%float = true ->
  get_congestion_mode params load = "critical".
Proof.
  intros Heh Hhc Hc. unfold get_congestion_mode.
  rewrite (float_leb_ltb_trans _ _ _ Hc (float_ltb_trans _ _ _ Heh Hhc)).
  rewrite (float_leb_ltb_trans _ _ _ Hc Hhc).
  rewrite (float_leb_not_ltb _ _ Hc). reflexivity.
Qed.

(** C2.  With strictly increasing thresholds, a call whose load fraction is
    at or above the critical threshold and whose transaction has
    [tier < 2] or no fee returns [(False, "critical_mode_rejection")],
    whatever the controller's per-identity history, and leaves the
    controller (and the generator) unchanged. *)
Theorem critical_mode_gate identity tier has_fee timestamp load self g :
  (config.elevated_threshold params <? config.high_threshold params)%float
    = true ->
  (config.high_threshold params <? config.critical_threshold params)%float
    = true ->
  (config.critical_threshold params <=? load)%float = true ->
  tier < 2 \/ has_fee = false ->
  admit_transaction params identity tier has_fee timestamp load self g
    = Ok ((false, "critical_mode_rejection"), self, g).
Proof.
  intros Heh Hhc Hc Ht. unfold admit_transaction.
  rewrite (get_congestion_mode_critical _ Heh Hhc Hc).
  unfold mode_gate. simpl String.eqb. cbv iota.
  assert ((tier <? 2) || negb has_fee = true) as ->.
  { destruct Ht as [Ht | ->].
    - apply Z.ltb_lt in Ht. rewrite Ht. reflexivity.
    - apply orb_true_r. }
  reflexivity.
Qed.

(** A known identity inside its rate-limit window does not get past the
    rate-limit check. *)
Lemma rate_limit_gate_limited identity timestamp last rf w self g :
  identity_last_access self !! identity = Some last ->
  to_float (rate_limit self) = Ok rf ->
  truediv 1 rf = Ok w ->
  (timestamp - last <? w)%float = true ->
  rate_limit_gate identity timestamp self g
    = Ok (Some (false, "rate_limited"), self, g).
Proof.
  intros Hl Hrf Hw Hlt. unfold rate_limit_gate, bind, get.
  rewrite Hl. unfold lift. rewrite Hrf, Hw, Hlt. reflexivity.
Qed.

(** Such calls keep what the controller has recorded for [identity], and
    its rate limit. *)
Lemma calls_between_keep identity self1 self2 :
  calls_between params identity self1 self2 ->
  identity_last_access self2 !! identity
    = identity_last_access self1 !! identity /\
  rate_limit self2 = rate_limit self1.
Proof.
  induction 1 as [|self2 self3 other tier has_fee timestamp load g b reason
                   g' _ [IHl IHr] Hcall Hother]; [auto|].
  apply admit_transaction_Ok in Hcall.
  destruct Hcall as [(-> & _ & ->) | (_ & _ & ->)]; [|auto].
  destruct Hother as [Hne | ?]; [|discriminate].
  split; [|exact IHr].
  cbn. rewrite lookup_insert_ne by exact Hne. exact IHl.
Qed.

(** C1, as amended.  Take a pair of calls for the same identity, the first
    admitted at [t1], the second at [t2] with [t2 - t1 < 1/rate_limit],
    with any calls in between that do not admit that identity again.  The
    second call is never admitted and never changes the controller, and its
    reason is decided by the congestion-mode gate, which runs first: when
    the gate lets the call through (in particular whenever the load is
    below the elevated threshold) the call returns
    [(False, "rate_limited")]; when the gate rejects it, the call returns
    the gate's own rejection, whose reason is one of
    ["critical_mode_rejection"], ["tier0_suspended"], ["fee_required"] and
    ["tier0_throttled"], so not ["rate_limited"]. *)
Theorem rate_limit_after_mode_gate identity tier1 fee1 t1 load1
    tier2 fee2 t2 load2 self g r1 self1 g1 self2 g2 rf w :
  admit_transaction params identity tier1 fee1 t1 load1 self g
    = Ok ((true, r1), self1, g1) ->
  calls_between params identity self1 self2 ->
  to_float (rate_limit self) = Ok rf ->
  truediv 1 rf = Ok w ->
  (t2 - t1 <? w)%float = true ->
  let gate := mode_gate (get_congestion_mode params load2) tier2 fee2 in
  let second :=
    admit_transaction params identity tier2 fee2 t2 load2 self2 g2 in
  (forall b r s g3, second = Ok ((b, r), s, g3) ->
     b = false /\ s = self2 /\
     (r = "rate_limited" /\ gate self2 g2 = Ok (None, self2, g3) \/
      r <> "rate_limited" /\ gate self2 g2 = Ok (Some (false, r), self2, g3))) /\
  (forall s g3,
     gate self2 g2 = Ok (None, s, g3) ->
     second = Ok ((false, "rate_limited"), self2, g3)) /\
  (forall b r s g3,
     gate self2 g2 = Ok (Some (b, r), s, g3) ->
     second = Ok ((false, r), self2, g3) /\
     r ∈ ["critical_mode_rejection"; "tier0_suspended";
          "fee_required"; "tier0_throttled"]) /\
  ((load2 <? config.elevated_threshold params)%float = true ->
   second = Ok ((false, "rate_limited"), self2, g2)).
Proof.
  intros H1 Hbetween Hrf Hw Hlt gate second.
  apply admit_transaction_Ok in H1.
  destruct H1 as [(_ & _ & ->) | (Hf & _)]; [|discriminate].
  apply calls_between_keep in Hbetween. destruct Hbetween as [Hlast Hrate].
  cbn in Hlast, Hrate. rewrite lookup_insert_eq in Hlast.
  rewrite <- Hrate in Hrf.
  assert (Hpass : forall s g3,
    gate self2 g2 = Ok (None, s, g3) ->
    second = Ok ((false, "rate_limited"), self2, g3)).
  { intros s g3 Hg. subst second gate. unfold admit_transaction.
    rewrite (bind_eq _ _ _ _ _ _ _ Hg).
    pose proof (mode_gate_Ok _ _ _ _ _ _ _ _ Hg) as [-> _].
    rewrite (bind_eq _ _ _ _ _ _ _
               (rate_limit_gate_limited _ _ _ _ _ _ g3 Hlast Hrf Hw Hlt)).
    reflexivity. }
  assert (Hstop : forall b r s g3,
    gate self2 g2 = Ok (Some (b, r), s, g3) ->
    second = Ok ((false, r), self2, g3) /\
    r ∈ ["critical_mode_rejection"; "tier0_suspended";
         "fee_required"; "tier0_throttled"]).
  { intros b r s g3 Hg. subst second gate. unfold admit_transaction.
    rewrite (bind_eq _ _ _ _ _ _ _ Hg).
    pose proof (mode_gate_Ok _ _ _ _ _ _ _ _ Hg) as [-> [-> Hin]].
    split; [reflexivity | exact Hin]. }
  split; [|split; [exact Hpass | split; [exact Hstop|]]].
  - intros b r s g3 Hs.
    assert (Hs' := Hs). subst second. unfold admit_transaction in Hs'.
    apply bind_Ok in Hs'. destruct Hs' as (res & s1 & g4 & Hg & _).
    fold gate in Hg.
    pose proof (mode_gate_Ok _ _ _ _ _ _ _ _ Hg) as [-> Hr].
    destruct res as [[b0 r0]|].
    + destruct Hr as [-> Hin].
      destruct (Hstop _ _ _ _ Hg) as [Hsecond _].
      rewrite Hsecond in Hs. injection Hs as <- <- <- <-.
      split; [reflexivity | split; [reflexivity | right]].
      split; [|exact Hg].
      intros ->. revert Hin. clear. rewrite !elem_of_cons, elem_of_nil.
      intuition discriminate.
    + rewrite (Hpass _ _ Hg) in Hs. injection Hs as <- <- <- <-.
      split; [reflexivity | split; [reflexivity | left]].
      split; [reflexivity | exact Hg].
  - intros Hn. apply (Hpass self2). subst gate. unfold get_congestion_mode.
    rewrite Hn. reflexivity.
Qed.
End admission_claims.

(** *** Concrete calls on the default controller *)

(** A first call in normal mode is admitted and records its timestamp. *)
Lemma first_call_admitted :
  AdmissionController.admit_transaction config.DOS_PARAMS "alice" 2 true 0 0
    default_controller.1 default_controller.2
  = Ok ((true, "admitted"),
        AdmissionController.set_identity_last_access
          (<["alice" := 0%float]> ∅) default_controller.1,
        default_controller.2).
Proof. vm_compute. reflexivity. Qed.

Lemma admit_transaction_writes_iff_admitted_witness :
  (true = true <-> "admitted" = "admitted") /\
  AdmissionController.identity_last_access
    (AdmissionController.set_identity_last_access
       (<["alice" := 0%float]> ∅) default_controller.1)
  = <["alice" := 0%float]>
      (AdmissionController.identity_last_access default_controller.1)
  /\ AdmissionController.identity_last_access
       (AdmissionController.set_identity_last_access
          (<["alice" := 0%float]> ∅) default_controller.1) !! "alice"
     = Some 0%float
  /\ AdmissionController.capacity_tps
       (AdmissionController.set_identity_last_access
          (<["alice" := 0%float]> ∅) default_controller.1)
     = AdmissionController.capacity_tps default_controller.1
  /\ AdmissionController.rate_limit
       (AdmissionController.set_identity_last_access
          (<["alice" := 0%float]> ∅) default_controller.1)
     = AdmissionController.rate_limit default_controller.1.
Proof.
  exact (admit_transaction_writes_iff_admitted config.DOS_PARAMS
           "alice" 2 true 0 0 default_controller.1 default_controller.2
           true "admitted" _ _ first_call_admitted).
Defined.

Lemma critical_mode_gate_witness :
  AdmissionController.admit_transaction config.DOS_PARAMS "alice" 0 false
    0.001 1 default_controller.1 default_controller.2
  = Ok ((false, "critical_mode_rejection"),
        default_controller.1, default_controller.2).
Proof.
  apply (critical_mode_gate config.DOS_PARAMS "alice" 0 false 0.001 1).
  - vm_compute. reflexivity.
  - vm_compute. reflexivity.
  - vm_compute. reflexivity.
  - left. lia.
Defined.

(** The claim of C1 as worded fails: after an admitted call, a second call
    1 ms later at full load with tier 0 and no fee is stopped by the
    critical-mode rule, whose reason it returns, before the rate limit is
    looked at. *)
Lemma second_call_critical_not_rate_limited :
  exists self1 g1 rf w,
    AdmissionController.admit_transaction config.DOS_PARAMS "alice" 2 true
      0 0 default_controller.1 default_controller.2
      = Ok ((true, "admitted"), self1, g1) /\
    to_float (AdmissionController.rate_limit default_controller.1) = Ok rf /\
    truediv 1 rf = Ok w /\
    (0.001 - 0 <? w)%float = true /\
    AdmissionController.admit_transaction config.DOS_PARAMS "alice" 0 false
      0.001 1 self1 g1
      = Ok ((false, "critical_mode_rejection"), self1, g1) /\
    AdmissionController.admit_transaction config.DOS_PARAMS "alice" 0 false
      0.001 1 self1 g1
      <> Ok ((false, "rate_limited"), self1, g1).
Proof.
  eexists _, _, _, _.
  split; [exact first_call_admitted|].
  split; [vm_compute; reflexivity|].
  split; [vm_compute; reflexivity|].
  split; [vm_compute; reflexivity|].
  split; [vm_compute; reflexivity|].
  vm_compute. discriminate.
Qed.

Lemma rate_limit_after_mode_gate_witness :
  let self1 :=
    AdmissionController.set_identity_last_access
      (<["alice" := 0%float]> ∅) default_controller.1 in
  let self2 :=
    AdmissionController.set_identity_last_access
      (<["bob" := 0.0005%float]> (<["alice" := 0%float]> ∅))
      default_controller.1 in
  AdmissionController.admit_transaction config.DOS_PARAMS "bob" 0 false
    0.0005 0 self1 default_controller.2
  = Ok ((true, "admitted"), self2, default_controller.2) /\
  AdmissionController.admit_transaction config.DOS_PARAMS "alice" 0 false
    0.001 0 self2 default_controller.2
  = Ok ((false, "rate_limited"), self2, default_controller.2) /\
  AdmissionController.admit_transaction config.DOS_PARAMS "alice" 0 false
    0.001 1 self2 default_controller.2
  = Ok ((false, "critical_mode_rejection"), self2, default_controller.2).
Proof.
  intros self1 self2.
  assert (Hbob :
    AdmissionController.admit_transaction config.DOS_PARAMS "bob" 0 false
      0.0005 0 self1 default_controller.2
    = Ok ((true, "admitted"), self2, default_controller.2))
    by (vm_compute; reflexivity).
  assert (Hbetween : calls_between config.DOS_PARAMS "alice" self1 self2).
  { apply (calls_between_call config.DOS_PARAMS "alice" self1 self1 self2
             "bob" 0 false 0.0005%float 0%float default_controller.2
             true "admitted" default_controller.2
             (calls_between_none config.DOS_PARAMS "alice" self1) Hbob).
    left. discriminate. }
  assert (Hrf : to_float
                  (AdmissionController.rate_limit default_controller.1)
                = Ok 5%float) by (vm_compute; reflexivity).
  assert (Hw : truediv 1 5 = Ok (1 / 5)%float) by (vm_compute; reflexivity).
  assert (Hlt : (0.001 - 0 <? 1 / 5)%float = true)
    by (vm_compute; reflexivity).
  split; [exact Hbob|]. split.
  - refine (proj2 (proj2 (proj2 (rate_limit_after_mode_gate
              config.DOS_PARAMS "alice" 2 true 0 0 0 false 0.001 0
              default_controller.1 default_controller.2 "admitted"
              self1 default_controller.2 self2 default_controller.2
              5 (1 / 5) first_call_admitted Hbetween Hrf Hw Hlt))) _).
    vm_compute. reflexivity.
  - refine (proj1 (proj1 (proj2 (proj2 (rate_limit_after_mode_gate
              config.DOS_PARAMS "alice" 2 true 0 0 0 false 0.001 1
              default_controller.1 default_controller.2 "admitted"
              self1 default_controller.2 self2 default_controller.2
              5 (1 / 5) first_call_admitted Hbetween Hrf Hw Hlt)))
              false "critical_mode_rejection" self2 default_controller.2
              _)).
    vm_compute. reflexivity.
Defined.

(** ** Loops *)

Section loops.
Context {G St A : Type}.
Variable body : M G St A.

(** A property of the state that every pass keeps is kept by the loop. *)
Lemma for_range_preserves (P : St -> Prop) :
  (forall s g a s' g', P s -> body s g = Ok (a, s', g') -> P s') ->
  forall n s g xs s' g',
    for_range n body s g = Ok (xs, s', g') -> P s -> P s'.
Proof.
  intros Hbody. induction n as [|n IH]; simpl; intros s g xs s' g' Hf Hs.
  - inv_M. exact Hs.
  - inv_M. eapply IH; [eassumption|]. eapply Hbody; eassumption.
Qed.

(** A quantity that each pass moves by a weight of what the pass returns
    moves, over the loop, by the sum of the weights; the loop makes exactly
    [n] passes. *)
Lemma for_range_sum (f : St -> Z) (w : A -> Z) :
  (forall s g a s' g', body s g = Ok (a, s', g') -> f s' = f s + w a) ->
  forall n s g xs s' g',
    for_range n body s g = Ok (xs, s', g') ->
    f s' = f s + foldr (fun a acc => w a + acc) 0 xs /\ length xs = n.
Proof.
  intros Hbody. induction n as [|n IH]; simpl; intros s g xs s' g' Hf.
  - inv_M. simpl. split; [lia | reflexivity].
  - inv_M.
    match goal with Hb : body _ _ = Ok _ |- _ => apply Hbody in Hb as Hw end.
    match goal with Hr : for_range _ _ _ _ = Ok _ |- _ =>
      apply IH in Hr as [Hs Hlen] end.
    simpl. split; [lia | congruence].
Qed.
End loops.

(** ** The simulator, one arrival at a time *)

Section simulator_steps.
Context {G : Type} `{RandomSource G}.
Variable params : config.DoSParams.
Variable self : DoSSimulator.t.
Variable time_step_s : float.
Import DoSSimulator.

Implicit Types (l : locals) (g : G).

Lemma call_controller_Ok identity tier has_fee load l g r l' g' :
  call_controller params identity tier has_fee load l g = Ok (r, l', g') ->
  exists c, l' = set_controller c l.
Proof. unfold call_controller. intros Ha. inv_M. eauto. Qed.

Lemma record_legit_Ok admitted l g l' g' :
  record_legit self admitted l g = Ok (tt, l', g') ->
  controller l' = controller l /\ legit_effect l l'.
Proof.
  unfold record_legit, legit_effect. intros Hr.
  destruct admitted.
  - apply bind_Ok in Hr. destruct Hr as (l0 & l1 & g1 & Hg & Hr).
    apply get_Ok in Hg. destruct Hg as (-> & -> & ->).
    destruct (Z.ltb_spec (queue_depth l) max_queue) as [Hroom | Hfull];
      inv_M; simpl; repeat split; auto.
    left. eauto 10.
  - inv_M. simpl. repeat split; auto.
Qed.

Lemma legit_arrival_Ok load l g l' g' :
  legit_arrival params self load l g = Ok (tt, l', g') ->
  exists c, legit_effect (set_controller c l) l'.
Proof.
  unfold legit_arrival. intros Hl.
  apply bind_Ok in Hl. destruct Hl as (k & l1 & g1 & Hk & Hl).
  apply bind_Ok in Hl. destruct Hl as (tier & l2 & g2 & Ht & Hl).
  apply bind_Ok in Hl. destruct Hl as (fee & l3 & g3 & Hf & Hl).
  apply bind_Ok in Hl. destruct Hl as (r & l4 & g4 & Ha & Hl).
  assert (l3 = l) as ->.
  { unfold draw_has_fee in Hf. destruct (0 <? tier); inv_M; reflexivity. }
  apply call_controller_Ok in Ha. destruct Ha as [c ->].
  apply record_legit_Ok in Hl. destruct Hl as [_ Hl]. eauto.
Qed.

Lemma attack_arrival_Ok load l g b l' g' :
  attack_arrival params load l g = Ok (b, l', g') ->
  exists c, attack_effect b (set_controller c l) l'.
Proof.
  unfold attack_arrival. intros Ha.
  apply bind_Ok in Ha. destruct Ha as (k & l1 & g1 & Hk & Ha).
  apply bind_Ok in Ha. destruct Ha as (r & l2 & g2 & Hr & Ha).
  apply draw_Ok in Hk. destruct Hk as [_ ->].
  apply call_controller_Ok in Hr. destruct Hr as [c ->]. exists c.
  unfold record_attack, attack_effect in *.
  destruct r as [[|] reason]; simpl in Ha; inv_M; simpl; auto 10.
Qed.

Lemma drain_Ok l g l' g' :
  drain self time_step_s l g = Ok (tt, l', g') ->
  exists c k,
    to_float (capacity_tps self) = Ok c /\
    Py.int (c * time_step_s) = Ok k /\
    l' = set_queue_depth
           (queue_depth l - Z.min (queue_depth l) k) l /\
    g' = g.
Proof.
  unfold drain. intros Hd. inv_M.
  eexists _, _. repeat split; try eassumption.
  f_equal. lia.
Qed.

Lemma tick_Ok l g l' g' :
  tick time_step_s l g = Ok (tt, l', g') ->
  l' = set_current_time (current_time l + time_step_s) l /\ g' = g.
Proof. unfold tick. intros Ht. inv_M. auto. Qed.

(** The structure of one pass of the [while] body that completes: both
    [for] loops, the drain and the advance of the clock, in this order,
    under one load fraction. *)
Lemma time_step_Ok lr ar l g log l' g' :
  time_step params self time_step_s lr ar l g = Ok (log, l', g') ->
  exists load us l1 g1 l2 g2 l3 g3,
    for_range (N.to_nat (n_legit log)) (legit_arrival params self load) l g1
      = Ok (us, l1, g2) /\
    for_range (N.to_nat (n_attack log)) (attack_arrival params load) l1 g2
      = Ok (attack_admitted log, l2, g3) /\
    drain self time_step_s l2 g3 = Ok (tt, l3, g') /\
    tick time_step_s l3 g' = Ok (tt, l', g').
Proof.
  unfold time_step. intros Hs.
  apply bind_Ok in Hs. destruct Hs as (nl & s1 & g1 & Hnl & Hs).
  apply bind_Ok in Hs. destruct Hs as (na & s2 & g2 & Hna & Hs).
  apply bind_Ok in Hs. destruct Hs as (l0 & s3 & g3 & Hget & Hs).
  apply bind_Ok in Hs. destruct Hs as (tot & s4 & g4 & Htot & Hs).
  apply bind_Ok in Hs. destruct Hs as (off & s5 & g5 & Hoff & Hs).
  apply bind_Ok in Hs. destruct Hs as (c & s6 & g6 & Hc & Hs).
  apply bind_Ok in Hs. destruct Hs as (x & s7 & g7 & Hx & Hs).
  apply bind_Ok in Hs. destruct Hs as (us & s8 & g8 & Hlegit & Hs).
  apply bind_Ok in Hs. destruct Hs as (flags & s9 & g9 & Hattack & Hs).
  apply bind_Ok in Hs. destruct Hs as ([] & s10 & g10 & Hdrain & Hs).
  apply bind_Ok in Hs. destruct Hs as ([] & s11 & g11 & Htick & Hs).
  inv_M. simpl.
  pose proof (tick_Ok _ _ _ _ Htick) as [_ ->].
  eexists _, _, _, _, _, _, _, _. eauto.
Qed.
End simulator_steps.

(** ** Signs of the floats of the drain *)

Lemma binary_round_aux_nonneg p em m e loc :
  SFnonneg (binary_round_aux p em false m e loc).
Proof.
  unfold binary_round_aux.
  destruct (shr_fexp p em m e loc) as [r1 e1].
  destruct (shr_fexp p em _ e1 loc_Exact) as [r2 e2].
  destruct (shr_m r2); [exact I | | exact I].
  destruct (_ <=? _); reflexivity.
Qed.

Lemma binary_round_nonneg p em m e : SFnonneg (binary_round p em false m e).
Proof.
  unfold binary_round. destruct (shl_align _ _ _) as [mz ez].
  apply binary_round_aux_nonneg.
Qed.

Lemma binary_normalize_nonneg p em m e :
  0 <= m -> SFnonneg (binary_normalize p em m e false).
Proof.
  destruct m; simpl; intros Hm; [exact I | apply binary_round_nonneg | lia].
Qed.

Lemma SFldexp_nonneg p em f e : SFnonneg f -> SFnonneg (SFldexp p em f e).
Proof. destruct f; simpl; auto. intros ->. apply binary_round_nonneg. Qed.

Lemma SFmul_nonneg p em x y :
  SFnonneg x -> SFnonneg y -> SFnonneg (SFmul p em x y).
Proof.
  destruct x, y; simpl; intros; subst; simpl; auto.
  apply binary_round_aux_nonneg.
Qed.

Lemma Prim2SF_SF2Prim_nonneg x : SFnonneg x -> SFnonneg (Prim2SF (SF2Prim x)).
Proof.
  destruct x as [s|s| |s m e]; intros Hx.
  - destruct s; vm_compute; exact I.
  - simpl in Hx. subst s. vm_compute. reflexivity.
  - vm_compute. exact I.
  - simpl in Hx. subst s. unfold SF2Prim, Z.ldexp.
    rewrite ldshiftexp_spec, of_uint63_spec.
    apply SFldexp_nonneg, binary_normalize_nonneg.
    apply Uint63.to_Z_bounded.
Qed.

(** [float(z)] of a non-negative int is not negative. *)
Lemma float_of_Z_nonneg z : 0 <= z -> SFnonneg (Prim2SF (float_of_Z z)).
Proof.
  intros Hz. apply Prim2SF_SF2Prim_nonneg, binary_normalize_nonneg, Hz.
Qed.

Lemma leb_zero_nonneg x : (0 <=? x)%float = true -> SFnonneg (Prim2SF x).
Proof.
  rewrite FloatAxioms.leb_spec. change (Prim2SF 0) with (S754_zero false).
  destruct (Prim2SF x) as [s|s| |s m e]; simpl; auto; destruct s; auto;
    discriminate.
Qed.

Lemma mul_nonneg (x y : float) :
  SFnonneg (Prim2SF x) -> SFnonneg (Prim2SF y) ->
  SFnonneg (Prim2SF (x * y)).
Proof. rewrite mul_spec. apply SFmul_nonneg. Qed.

(** [int(x)] of a float that is not negative is not negative. *)
Lemma int_nonneg x k : SFnonneg (Prim2SF x) -> Py.int x = Ok k -> 0 <= k.
Proof.
  unfold Py.int.
  destruct (Prim2SF x) as [s|s| |s m e]; simpl; try discriminate.
  - intros _ [= <-]. lia.
  - intros -> [= <-]. apply Z.shiftl_nonneg. lia.
Qed.

(** The number of transactions served per step is not negative when the
    capacity and the step are not. *)
Lemma service_nonneg capacity (time_step_s c : float) k :
  0 <= capacity ->
  (0 <=? time_step_s)%float = true ->
  to_float capacity = Ok c ->
  Py.int (c * time_step_s) = Ok k ->
  0 <= k.
Proof.
  intros Hcap Hts Hc Hk. eapply int_nonneg; [|exact Hk].
  apply mul_nonneg; [|apply leb_zero_nonneg, Hts].
  unfold to_float in Hc. destruct (is_infinity _); [discriminate|].
  injection Hc as <-. apply float_of_Z_nonneg, Hcap.
Qed.

(** ** The simulator, one time step and one run at a time *)

Lemma foldr_const_one {A} (xs : list A) :
  foldr (fun _ acc => 1 + acc) 0 xs = Z.of_nat (length xs).
Proof. induction xs as [|x xs IH]; simpl; [reflexivity | lia]. Qed.

Lemma foldr_rejected_count (flags : list bool) :
  foldr (fun (b : bool) acc => (if b then 0 else 1) + acc) 0 flags
    + admitted_count flags
  = Z.of_nat (length flags).
Proof.
  unfold admitted_count.
  induction flags as [|[|] flags IH]; simpl; [reflexivity | lia | lia].
Qed.

Section simulator_runs.
Context {G : Type} `{RandomSource G}.
Variable params : config.DoSParams.
Variable self : DoSSimulator.t.
Variable scenario : DoSScenario.t.
Variable duration_s : float.
Variable time_step_s : float.
Import DoSSimulator.

Implicit Types (l : locals) (g : G).

Local Abbreviation time_step :=
  (DoSSimulator.time_step params self time_step_s).
Local Abbreviation while_loop :=
  (DoSSimulator.while_loop params self duration_s time_step_s).
Local Abbreviation visits := (visits (G := G) params self time_step_s).

Lemma while_loop_preserves (P : locals -> Prop) :
  (forall lr ar l g log l' g',
     P l -> time_step lr ar l g = Ok (log, l', g') -> P l') ->
  forall fuel lr ar l g logs l' g',
    while_loop fuel lr ar l g = Ok (logs, l', g') -> P l -> P l'.
Proof.
  intros Hstep. induction fuel as [|fuel IH]; simpl;
    intros lr ar l g logs l' g' Hw Hl;
    destruct (current_time l <? duration_s)%float; try discriminate.
  - injection Hw as _ <- _. exact Hl.
  - inv_M. eapply IH; [eassumption|]. eapply Hstep; eassumption.
  - injection Hw as _ <- _. exact Hl.
Qed.

Lemma while_loop_sum (f : locals -> Z) (w : step_log -> Z) :
  (forall lr ar l g log l' g',
     time_step lr ar l g = Ok (log, l', g') -> f l' = f l + w log) ->
  forall fuel lr ar l g logs l' g',
    while_loop fuel lr ar l g = Ok (logs, l', g') ->
    f l' = f l + foldr (fun s acc => w s + acc) 0 logs.
Proof.
  intros Hstep. induction fuel as [|fuel IH]; simpl;
    intros lr ar l g logs l' g' Hw;
    destruct (current_time l <? duration_s)%float; try discriminate.
  - injection Hw as <- <- _. simpl. lia.
  - inv_M.
    match goal with Hs : time_step _ _ _ _ = Ok _ |- _ =>
      apply Hstep in Hs end.
    match goal with Hr : while_loop _ _ _ _ _ = Ok _ |- _ =>
      apply IH in Hr end.
    simpl. lia.
  - injection Hw as <- <- _. simpl. lia.
Qed.

(** Every state a completed pass leaves is one the run passes through. *)
Lemma time_step_visits lr ar l g log l' g' :
  visits l -> time_step lr ar l g = Ok (log, l', g') -> visits l'.
Proof.
  intros Hv Hs. apply time_step_Ok in Hs.
  destruct Hs as (load & us & l1 & g1 & l2 & g2 & l3 & g3
                  & Hlegit & Hattack & Hdrain & Htick).
  eapply visits_tick; [|exact Htick].
  eapply visits_drain; [|exact Hdrain].
  eapply (for_range_preserves _ visits); [|exact Hattack|].
  { intros s g0 a s' g0' Hs Hb. eapply visits_attack; eassumption. }
  eapply (for_range_preserves _ visits); [|exact Hlegit|exact Hv].
  intros s g0 [] s' g0' Hs Hb. eapply visits_legit; eassumption.
Qed.

Lemma legit_arrival_counts load l g u l' g' :
  legit_arrival params self load l g = Ok (u, l', g') ->
  legitimate_admitted l' + legitimate_dropped l'
    = legitimate_admitted l + legitimate_dropped l + 1
  /\ attack_filtered l' = attack_filtered l.
Proof.
  intros Hl. destruct u. apply legit_arrival_Ok in Hl.
  destruct Hl as (c & Hf & _ & [Hin | Hout]); simpl in *; lia.
Qed.

Lemma attack_arrival_counts load l g b l' g' :
  attack_arrival params load l g = Ok (b, l', g') ->
  legitimate_admitted l' + legitimate_dropped l'
    = legitimate_admitted l + legitimate_dropped l
  /\ attack_filtered l' = attack_filtered l + (if b then 0 else 1).
Proof.
  intros Ha. apply attack_arrival_Ok in Ha.
  destruct Ha as (c & Ha & Hd & _ & _ & Hb). simpl in *.
  destruct b; lia.
Qed.

(** Over one pass, the two legitimate counters together move by the number
    of legitimate arrivals, and the filter count by the attack arrivals the
    controller rejected. *)
Lemma time_step_counts lr ar l g log l' g' :
  time_step lr ar l g = Ok (log, l', g') ->
  legitimate_admitted l' + legitimate_dropped l'
    = legitimate_admitted l + legitimate_dropped l + Z.of_N (n_legit log)
  /\ attack_filtered l' + admitted_count (attack_admitted log)
     = attack_filtered l + Z.of_N (n_attack log).
Proof.
  intros Hs. apply time_step_Ok in Hs.
  destruct Hs as (load & us & l1 & g1 & l2 & g2 & l3 & g3
                  & Hlegit & Hattack & Hdrain & Htick).
  apply drain_Ok in Hdrain. destruct Hdrain as (c & k & _ & _ & -> & _).
  apply tick_Ok in Htick. destruct Htick as [-> _]. simpl.
  pose proof (for_range_sum _
    (fun l => legitimate_admitted l + legitimate_dropped l) (fun _ => 1)
    (fun s g a s' g' Hb => proj1 (legit_arrival_counts load s g a s' g' Hb))
    _ _ _ _ _ _ Hlegit) as [Hl1 Hn1].
  pose proof (for_range_preserves _
    (fun s => attack_filtered s = attack_filtered l)
    (fun s g a s' g' Hs Hb =>
       eq_trans (proj2 (legit_arrival_counts load s g a s' g' Hb)) Hs)
    _ _ _ _ _ _ Hlegit eq_refl) as Hl2.
  pose proof (for_range_preserves _
    (fun s => legitimate_admitted s + legitimate_dropped s
              = legitimate_admitted l1 + legitimate_dropped l1)
    (fun s g a s' g' Hs Hb =>
       eq_trans (proj1 (attack_arrival_counts load s g a s' g' Hb)) Hs)
    _ _ _ _ _ _ Hattack eq_refl) as Ha1.
  pose proof (for_range_sum _ attack_filtered
    (fun b : bool => if b then 0 else 1)
    (fun s g a s' g' Hb =>
       proj2 (attack_arrival_counts load s g a s' g' Hb))
    _ _ _ _ _ _ Hattack) as [Ha2 Hn2].
  cbv beta in *.
  rewrite foldr_const_one, Hn1, N_nat_Z in Hl1.
  pose proof (foldr_rejected_count (attack_admitted log)) as Hc.
  rewrite Hn2, N_nat_Z in Hc.
  lia.
Qed.
End simulator_runs.

(** ** Claims about runs of [simulate_scenario] *)

Section simulator_claims.
Context {G : Type} `{RandomSource G}.
Variable params : config.DoSParams.
Variable percentile : list float -> float -> float.
Variable self : DoSSimulator.t.
Variable scenario : DoSScenario.t.
Variable duration_s : float.
Import DoSSimulator.

Implicit Types (l : locals) (g : G).

Local Abbreviation visits ts := (visits (G := G) params self ts).
Local Abbreviation run ts := (DoSSimulator.run params self scenario duration_s ts).
Local Abbreviation result_of :=
  (DoSSimulator.result_of percentile self scenario duration_s).

(** A completed run is the loop run from the initial locals. *)
Lemma run_Ok ts fuel g logs l g' :
  run ts fuel g = Ok (logs, l, g') ->
  exists c lr ar,
    while_loop params self duration_s ts fuel lr ar (initial_locals c) g
      = Ok (logs, l, g').
Proof.
  unfold DoSSimulator.run. simpl.
  destruct (to_float (DoSScenario.attack_tps scenario)); try discriminate.
  eauto.
Qed.

Lemma run_visits ts fuel g logs l g' :
  run ts fuel g = Ok (logs, l, g') -> visits ts l.
Proof.
  intros Hr. apply run_Ok in Hr. destruct Hr as (c & lr & ar & Hw).
  eapply (while_loop_preserves params self duration_s ts (visits ts));
    [|exact Hw|apply visits_start].
  intros lr' ar' l0 g0 log l1 g1 Hv Hs. eapply time_step_visits; eassumption.
Qed.

Lemma run_counts ts fuel g logs l g' :
  run ts fuel g = Ok (logs, l, g') ->
  legitimate_admitted l + legitimate_dropped l = legit_arrivals logs /\
  attack_filtered l + attacks_admitted logs = attack_arrivals logs.
Proof.
  intros Hr. apply run_Ok in Hr. destruct Hr as (c & lr & ar & Hw).
  pose proof (while_loop_sum params self duration_s ts
    (fun l => legitimate_admitted l + legitimate_dropped l)
    (fun s => Z.of_N (n_legit s))
    (fun lr ar l g log l' g' Hs =>
       proj1 (time_step_counts params self ts lr ar l g log l' g' Hs))
    _ _ _ _ _ _ _ _ Hw) as Hlegit.
  assert (Hattack : attack_filtered l
    = attack_filtered (initial_locals c)
      + foldr (fun s acc =>
                 (Z.of_N (n_attack s) - admitted_count (attack_admitted s))
                 + acc) 0 logs).
  { apply (while_loop_sum params self duration_s ts attack_filtered
             (fun s => Z.of_N (n_attack s)
                       - admitted_count (attack_admitted s)))
      with (fuel := fuel) (lr := lr) (ar := ar) (g := g) (g' := g');
      [|exact Hw].
    intros lr' ar' l0 g0 log l1 g1 Hs.
    apply time_step_counts in Hs. lia. }
  simpl in Hlegit, Hattack. split; [exact Hlegit|].
  rewrite Hattack. unfold attacks_admitted, attack_arrivals.
  clear. induction logs as [|s logs IH]; simpl; lia.
Qed.

(** The queue depth stays within the buffer in every state of a run whose
    capacity and step are not negative. *)
Lemma visits_queue_depth ts l :
  0 <= capacity_tps self -> (0 <=? ts)%float = true ->
  visits ts l -> 0 <= queue_depth l <= max_queue.
Proof.
  intros Hcap Hts Hv.
  induction Hv as [c | load l g g' l' Hv IH Hl | load l g g' b l' Hv IH Ha
                   | l g g' l' Hv IH Hd | l g g' l' Hv IH Ht].
  - simpl. unfold max_queue. lia.
  - apply legit_arrival_Ok in Hl.
    destruct Hl as (c & _ & _ & [Hin | Hout]); simpl in *; lia.
  - apply attack_arrival_Ok in Ha.
    destruct Ha as (c & _ & _ & _ & _ & Hb). simpl in *.
    destruct b; lia.
  - apply drain_Ok in Hd. destruct Hd as (c & k & Hc & Hk & -> & _).
    pose proof (service_nonneg _ _ _ _ Hcap Hts Hc Hk). simpl. lia.
  - apply tick_Ok in Ht. destruct Ht as [-> _]. simpl. exact IH.
Qed.

(** One latency sample is recorded per admitted legitimate arrival. *)
Lemma visits_latencies ts l :
  visits ts l ->
  Z.of_nat (length (legitimate_latencies_ms l)) = legitimate_admitted l.
Proof.
  intros Hv.
  induction Hv as [c | load l g g' l' Hv IH Hl | load l g g' b l' Hv IH Ha
                   | l g g' l' Hv IH Hd | l g g' l' Hv IH Ht].
  - reflexivity.
  - apply legit_arrival_Ok in Hl.
    destruct Hl as (c & _ & _ & [(_ & _ & Ha & _ & x & Hx) | (_ & Ha & _ & Hx)]);
      simpl in *; rewrite Hx, Ha; [|exact IH].
    rewrite length_app. simpl. lia.
  - apply attack_arrival_Ok in Ha.
    destruct Ha as (c & Had & _ & Hlat & _). simpl in *. congruence.
  - apply drain_Ok in Hd. destruct Hd as (c & k & _ & _ & -> & _). exact IH.
  - apply tick_Ok in Ht. destruct Ht as [-> _]. exact IH.
Qed.

(** C3, as amended.  For a simulator whose [capacity_tps] is not negative
    and a time step that is not negative, in every state a run of
    [simulate_scenario] passes through (after each arrival that may
    enqueue, after each drain, at the end of the loop) the queue depth
    satisfies [0 <= depth <= 100000]; the drain takes
    [min(depth, int(capacity_tps * time_step_s))] off the depth, which
    never takes it below zero.  Neither condition is checked by the code,
    and the bound fails without the first. *)
Theorem queue_depth_invariant ts :
  0 <= capacity_tps self ->
  (0 <=? ts)%float = true ->
  max_queue = 100000 /\
  (forall l, visits ts l -> 0 <= queue_depth l <= max_queue) /\
  (forall l g l' g',
     visits ts l -> drain self ts l g = Ok (tt, l', g') ->
     exists c k,
       to_float (capacity_tps self) = Ok c /\
       Py.int (c * ts) = Ok k /\
       queue_depth l' = queue_depth l - Z.min (queue_depth l) k /\
       0 <= queue_depth l' <= queue_depth l) /\
  (forall fuel g logs l g',
     run ts fuel g = Ok (logs, l, g') ->
     visits ts l /\ 0 <= queue_depth l <= max_queue).
Proof.
  intros Hcap Hts. split; [reflexivity|]. split; [|split].
  - intros l Hv. apply (visits_queue_depth ts); assumption.
  - intros l g l' g' Hv Hd.
    pose proof (visits_queue_depth ts l Hcap Hts Hv) as Hq.
    apply drain_Ok in Hd. destruct Hd as (c & k & Hc & Hk & -> & _).
    pose proof (service_nonneg _ _ _ _ Hcap Hts Hc Hk).
    exists c, k. simpl. repeat split; auto; lia.
  - intros fuel g logs l g' Hr. apply run_visits in Hr.
    split; [exact Hr | apply (visits_queue_depth ts); assumption].
Qed.
End simulator_claims.

Section result_claims.
Context {G : Type} `{RandomSource G}.
Variable params : config.DoSParams.
Variable percentile : list float -> float -> float.
Variable self : DoSSimulator.t.
Variable scenario : DoSScenario.t.
Variable duration_s : float.
Import DoSSimulator.

Implicit Types (l : locals) (g : G).

Local Abbreviation run ts :=
  (DoSSimulator.run params self scenario duration_s ts).
Local Abbreviation result_of :=
  (DoSSimulator.result_of percentile self scenario duration_s).
Local Abbreviation simulate_scenario fuel :=
  (DoSSimulator.simulate_scenario params percentile fuel self scenario
     duration_s).

(** [simulate_scenario] returns exactly when its loop completes, and then
    with the result packaged from the final locals. *)
Lemma simulate_scenario_Ok fuel time_step_ms g r g' :
  simulate_scenario fuel time_step_ms g = Ok (r, g') <->
  exists logs l,
    run (time_step_ms / 1000) fuel g = Ok (logs, l, g') /\ r = result_of l.
Proof.
  unfold DoSSimulator.simulate_scenario.
  destruct (DoSSimulator.run _ _ _ _ _ _ _) as [[[logs l] g1]|e|]; split.
  - intros [= <- <-]. eauto.
  - intros (logs' & l' & [= -> -> ->] & ->). reflexivity.
  - discriminate.
  - intros (? & ? & ? & _). discriminate.
  - discriminate.
  - intros (? & ? & ? & _). discriminate.
Qed.

(** When the queue is full, an arrival the controller admitted is counted
    as dropped and changes nothing else. *)
Lemma record_legit_queue_full l g :
  max_queue <= queue_depth l ->
  record_legit self true l g
  = Ok (tt, set_legitimate_dropped (legitimate_dropped l + 1) l, g).
Proof.
  intros Hfull. unfold record_legit, bind, get.
  destruct (Z.ltb_spec (queue_depth l) max_queue); [lia | reflexivity].
Qed.

(** C4.  Every legitimate arrival moves exactly one of the two counters
    [legitimate_admitted] and [legitimate_dropped], by one (an arrival the
    controller admitted while the queue is full counts as dropped); hence
    in the result of every run of [simulate_scenario] their sum is the
    number of legitimate arrivals generated over the run. *)
Theorem legitimate_arrivals_conserved :
  (forall load l g l' g',
     legit_arrival params self load l g = Ok (tt, l', g') ->
     (legitimate_admitted l' = legitimate_admitted l + 1 /\
      legitimate_dropped l' = legitimate_dropped l)
     \/ (legitimate_admitted l' = legitimate_admitted l /\
         legitimate_dropped l' = legitimate_dropped l + 1)) /\
  (forall l g,
     max_queue <= queue_depth l ->
     exists l',
       record_legit self true l g = Ok (tt, l', g) /\
       legitimate_admitted l' = legitimate_admitted l /\
       legitimate_dropped l' = legitimate_dropped l + 1) /\
  (forall fuel time_step_ms g r g',
     simulate_scenario fuel time_step_ms g = Ok (r, g') ->
     exists logs l,
       run (time_step_ms / 1000) fuel g = Ok (logs, l, g') /\
       r = result_of l /\
       DoSResult.legitimate_admitted r + DoSResult.legitimate_dropped r
         = legit_arrivals logs).
Proof.
  split; [|split].
  - intros load l g l' g' Hl. apply legit_arrival_Ok in Hl.
    destruct Hl as (c & _ & _ & [Hin | Hout]); simpl in *; [left | right];
      tauto.
  - intros l g Hfull. eexists. split; [apply record_legit_queue_full, Hfull|].
    simpl. auto.
  - intros fuel time_step_ms g r g' Hs. apply simulate_scenario_Ok in Hs.
    destruct Hs as (logs & l & Hr & ->). exists logs, l.
    split; [exact Hr|]. split; [reflexivity|].
    simpl. exact (proj1 (run_counts _ _ _ _ _ _ _ _ _ _ Hr)).
Qed.

(** What an attack arrival does, exactly: it draws the identity, asks the
    controller, and then either buffers the transaction or counts it as
    filtered. *)
Lemma attack_arrival_exact load l g admitted l' g' :
  attack_arrival params load l g = Ok (admitted, l', g') ->
  exists k g1 reason c',
    rng_integers 10000000 g = Ok (k, g1) /\
    AdmissionController.admit_transaction params ("attack_" +:+ pretty k)
      0 false (current_time l) load (controller l) g1
      = Ok ((admitted, reason), c', g') /\
    if admitted then
      c' = AdmissionController.set_identity_last_access
             (<["attack_" +:+ pretty k := current_time l]>
                (AdmissionController.identity_last_access (controller l)))
             (controller l) /\
      l' = set_queue_depth (Z.min (queue_depth l + 1) 100000)
             (set_controller c' l)
    else
      c' = controller l /\
      l' = set_attack_filtered (attack_filtered l + 1) l.
Proof.
  unfold attack_arrival. intros Ha.
  apply bind_Ok in Ha. destruct Ha as (k & l1 & g1 & Hk & Ha).
  apply draw_Ok in Hk. destruct Hk as [Hk ->].
  apply bind_Ok in Ha. destruct Ha as ([b reason] & l2 & g2 & Hr & Ha).
  unfold call_controller in Hr.
  apply bind_Ok in Hr. destruct Hr as (l0 & l3 & g3 & Hget & Hr).
  apply get_Ok in Hget. destruct Hget as (-> & -> & ->).
  apply zoom_Ok in Hr. destruct Hr as (c' & Hcall & ->).
  apply bind_Ok in Ha. destruct Ha as ([] & l4 & g4 & Hrec & Ha).
  apply ret_Ok in Ha. destruct Ha as (-> & -> & ->).
  exists k, g1, reason, c'. split; [exact Hk|].
  cbn [fst] in *.
  pose proof (admit_transaction_Ok _ _ _ _ _ _ _ _ _ _ _ _ Hcall) as Hc.
  unfold record_attack in Hrec.
  destruct b; apply modify_Ok in Hrec; destruct Hrec as [-> ->];
    (split; [exact Hcall|]);
    destruct Hc as [(Hb & _ & Hc) | (Hb & _ & Hc)]; try discriminate;
    (split; [exact Hc|]).
  - reflexivity.
  - rewrite Hc. destruct l. reflexivity.
Qed.

(** The log of a pass is what the pass drew and did: its two counts are
    the two Poisson draws, in this order, and its flags are what the attack
    loop, run once per attack arrival drawn, returned. *)
Lemma time_step_log ts lr ar l g log l' g' :
  time_step params self ts lr ar l g = Ok (log, l', g') ->
  exists g1 g2 load us l1 g3 l2 g4,
    rng_poisson lr g = Ok (n_legit log, g1) /\
    rng_poisson ar g1 = Ok (n_attack log, g2) /\
    for_range (N.to_nat (n_legit log)) (legit_arrival params self load) l g2
      = Ok (us, l1, g3) /\
    for_range (N.to_nat (n_attack log)) (attack_arrival params load) l1 g3
      = Ok (attack_admitted log, l2, g4) /\
    length (attack_admitted log) = N.to_nat (n_attack log) /\
    attack_filtered l' = attack_filtered l2.
Proof.
  unfold time_step. intros Hs.
  apply bind_Ok in Hs. destruct Hs as (nl & s1 & g1 & Hnl & Hs).
  apply bind_Ok in Hs. destruct Hs as (na & s2 & g2 & Hna & Hs).
  apply bind_Ok in Hs. destruct Hs as (l0 & s3 & g3 & Hget & Hs).
  apply bind_Ok in Hs. destruct Hs as (tot & s4 & g4 & Htot & Hs).
  apply bind_Ok in Hs. destruct Hs as (off & s5 & g5 & Hoff & Hs).
  apply bind_Ok in Hs. destruct Hs as (c & s6 & g6 & Hc & Hs).
  apply bind_Ok in Hs. destruct Hs as (x & s7 & g7 & Hx & Hs).
  apply bind_Ok in Hs. destruct Hs as (us & s8 & g8 & Hlegit & Hs).
  apply bind_Ok in Hs. destruct Hs as (flags & s9 & g9 & Hattack & Hs).
  apply bind_Ok in Hs. destruct Hs as ([] & s10 & g10 & Hdrain & Hs).
  apply bind_Ok in Hs. destruct Hs as ([] & s11 & g11 & Htick & Hs).
  apply draw_Ok in Hnl. destruct Hnl as [Hnl ->].
  apply draw_Ok in Hna. destruct Hna as [Hna ->].
  apply drain_Ok in Hdrain. destruct Hdrain as (c0 & k & _ & _ & -> & _).
  apply tick_Ok in Htick. destruct Htick as [-> _].
  inv_M. cbn [n_legit n_attack attack_admitted].
  eexists _, _, _, _, _, _, _, _.
  split; [exact Hnl|]. split; [exact Hna|].
  split; [eassumption|]. split; [eassumption|].
  split; [|reflexivity].
  eapply (for_range_sum _ (fun _ => 0) (fun _ => 0)); [|eassumption].
  reflexivity.
Qed.

(** A loop that completes made the chain of passes its log records. *)
Lemma while_loop_chain ts fuel lr ar l g logs l' g' :
  while_loop params self duration_s ts fuel lr ar l g = Ok (logs, l', g') ->
  pass_chain params self duration_s ts lr ar l g logs l' g'.
Proof.
  revert l g logs. induction fuel as [|fuel IH]; simpl; intros l g logs Hw;
    destruct (current_time l <? duration_s)%float eqn:Hlt;
    try discriminate.
  - injection Hw as <- <- <-. apply pass_chain_end, Hlt.
  - apply bind_Ok in Hw. destruct Hw as (log & l1 & g1 & Hs & Hw).
    apply bind_Ok in Hw. destruct Hw as (rest & l2 & g2 & Hrest & Hw).
    apply ret_Ok in Hw. destruct Hw as (-> & -> & ->).
    eapply pass_chain_pass; [exact Hlt | exact Hs | apply IH, Hrest].
  - injection Hw as <- <- <-. apply pass_chain_end, Hlt.
Qed.

(** C10, as amended.  Every attack arrival draws its identity and asks the
    controller.  When the controller rejects it, [attack_filtered] moves up
    by one and nothing else changes.  When the controller admits it, the
    queue depth becomes [min(depth + 1, 100000)] and the controller records
    the arrival's identity at the current time; nothing else changes, so
    [legitimate_admitted], [legitimate_dropped], the latency samples,
    [attack_filtered] and the clock stay as they were.  Each pass of the
    loop draws its number of attack arrivals from the Poisson distribution
    of the attack rate and runs the attack loop once per arrival drawn;
    hence in the result of every run [attack_filtered] plus the number of
    admitted attack arrivals is the number of attack arrivals drawn over
    the passes of the run. *)
Theorem attack_arrivals_accounted :
  (forall load l g admitted l' g',
     attack_arrival params load l g = Ok (admitted, l', g') ->
     (exists k g1 reason c',
        rng_integers 10000000 g = Ok (k, g1) /\
        AdmissionController.admit_transaction params
          ("attack_" +:+ pretty k) 0 false (current_time l) load
          (controller l) g1
          = Ok ((admitted, reason), c', g') /\
        if admitted then
          c' = AdmissionController.set_identity_last_access
                 (<["attack_" +:+ pretty k := current_time l]>
                    (AdmissionController.identity_last_access
                       (controller l)))
                 (controller l) /\
          l' = set_queue_depth (Z.min (queue_depth l + 1) 100000)
                 (set_controller c' l)
        else
          c' = controller l /\
          l' = set_attack_filtered (attack_filtered l + 1) l) /\
     legitimate_admitted l' = legitimate_admitted l /\
     legitimate_dropped l' = legitimate_dropped l /\
     legitimate_latencies_ms l' = legitimate_latencies_ms l /\
     current_time l' = current_time l /\
     attack_filtered l' = attack_filtered l + (if admitted then 0 else 1)) /\
  (forall ts lr ar l g log l' g',
     time_step params self ts lr ar l g = Ok (log, l', g') ->
     (exists g1 g2 load us l1 g3 l2 g4,
        rng_poisson lr g = Ok (n_legit log, g1) /\
        rng_poisson ar g1 = Ok (n_attack log, g2) /\
        for_range (N.to_nat (n_legit log)) (legit_arrival params self load)
          l g2 = Ok (us, l1, g3) /\
        for_range (N.to_nat (n_attack log)) (attack_arrival params load)
          l1 g3 = Ok (attack_admitted log, l2, g4) /\
        length (attack_admitted log) = N.to_nat (n_attack log) /\
        attack_filtered l' = attack_filtered l2) /\
     attack_filtered l' + admitted_count (attack_admitted log)
       = attack_filtered l + Z.of_N (n_attack log)) /\
  (forall fuel time_step_ms g r g',
     simulate_scenario fuel time_step_ms g = Ok (r, g') ->
     exists logs l a,
       run (time_step_ms / 1000) fuel g = Ok (logs, l, g') /\
       r = result_of l /\
       to_float (DoSScenario.attack_tps scenario) = Ok a /\
       pass_chain params self duration_s (time_step_ms / 1000)
         (legitimate_tps self * (time_step_ms / 1000))
         (a * (time_step_ms / 1000))
         (initial_locals
            (AdmissionController.init (capacity_tps self)
               default_rate_limit (Some g)).1)
         g logs l g' /\
       DoSResult.attack_filtered r + attacks_admitted logs
         = attack_arrivals logs).
Proof.
  split; [|split].
  - intros load l g admitted l' g' Ha.
    pose proof (attack_arrival_exact _ _ _ _ _ _ Ha) as Hex.
    split; [exact Hex|].
    destruct Hex as (k & g1 & reason & c' & _ & _ & Hl').
    destruct admitted; destruct Hl' as [_ ->]; cbn; repeat split; lia.
  - intros ts lr ar l g log l' g' Hs.
    split; [exact (time_step_log _ _ _ _ _ _ _ _ Hs)|].
    exact (proj2 (time_step_counts _ _ _ _ _ _ _ _ _ _ Hs)).
  - intros fuel time_step_ms g r g' Hs. apply simulate_scenario_Ok in Hs.
    destruct Hs as (logs & l & Hr & ->).
    pose proof (run_counts _ _ _ _ _ _ _ _ _ _ Hr) as [_ Hcount].
    unfold DoSSimulator.run in Hr. cbn [AdmissionController.init] in Hr.
    destruct (to_float (DoSScenario.attack_tps scenario)) as [a| |] eqn:Ha;
      try discriminate.
    exists logs, l, a.
    split.
    { unfold DoSSimulator.run. cbn [AdmissionController.init].
      rewrite Ha. exact Hr. }
    split; [reflexivity|]. split; [reflexivity|].
    split; [exact (while_loop_chain _ _ _ _ _ _ _ _ _ Hr) | exact Hcount].
Qed.

(** C8.  Whenever the loop of [simulate_scenario] completes, the call
    returns a result (the percentile step raises nothing); its
    [legitimate_p99_ms] is [0.0] when no latency sample was recorded, which
    is exactly when no legitimate arrival was admitted, and is
    [np.percentile(samples, 99)] of the recorded samples otherwise. *)
Theorem p99_of_recorded_latencies fuel time_step_ms g logs l g' :
  run (time_step_ms / 1000) fuel g = Ok (logs, l, g') ->
  simulate_scenario fuel time_step_ms g = Ok (result_of l, g') /\
  (legitimate_latencies_ms l = [] ->
   DoSResult.legitimate_p99_ms (result_of l) = 0%float) /\
  (legitimate_latencies_ms l <> [] ->
   DoSResult.legitimate_p99_ms (result_of l)
     = percentile (legitimate_latencies_ms l) 99) /\
  (legitimate_latencies_ms l = [] <->
   DoSResult.legitimate_admitted (result_of l) = 0).
Proof.
  intros Hr. split; [|split; [|split]].
  - apply simulate_scenario_Ok. eauto.
  - simpl. intros ->. reflexivity.
  - simpl. destruct (legitimate_latencies_ms l); [congruence | reflexivity].
  - simpl. apply run_visits, visits_latencies in Hr.
    destruct (legitimate_latencies_ms l); simpl in Hr; split;
      try congruence; try lia.
Qed.
End result_claims.

(** ** The fee draw *)

Lemma draw_eq {G St A} (d : G -> outcome (A * G)) (s : St) g a g' :
  d g = Ok (a, g') -> draw d s g = Ok (a, s, g').
Proof. unfold draw. intros ->. reflexivity. Qed.

Section fee_draw.
Context {G : Type} `{RandomSource G}.
Variable params : config.DoSParams.
Variable self : DoSSimulator.t.
Import DoSSimulator.

(** C9.  For a legitimate arrival whose identity and tier draws returned
    [k] and [tier]: when [tier >= 1] the fee flag is [True] and the
    generator is not touched between the tier draw and the controller call;
    when [tier = 0] (any [tier <= 0]) exactly one [random()] draw is taken
    and the flag is [u < 0.3].  Counted on a generator that counts its
    draws, the fee expression takes 0 draws in the first case and 1 in the
    second. *)
Theorem fee_draw_short_circuits load (l : locals) (g g1 g2 : G) k tier :
  rng_integers 1000000 g = Ok (k, g1) ->
  rng_choice [0; 1; 2; 3] [0.4; 0.3; 0.2; 0.1]%float g1 = Ok (tier, g2) ->
  (1 <= tier ->
   draw_has_fee tier l g2 = Ok (true, l, g2) /\
   legit_arrival params self load l g
   = (r <- call_controller params ("legit_" +:+ pretty k) tier true load ;;
      record_legit self r.1) l g2) /\
  (tier <= 0 ->
   forall u g3, rng_random g2 = Ok (u, g3) ->
   draw_has_fee tier l g2 = Ok ((u <? 0.3)%float, l, g3) /\
   legit_arrival params self load l g
   = (r <- call_controller params ("legit_" +:+ pretty k) tier
             (u <? 0.3)%float load ;;
      record_legit self r.1) l g3) /\
  (forall (n : nat) b l' c',
     draw_has_fee (G := G * nat) tier l (g2, n) = Ok (b, l', c') ->
     c'.2 = (n + (if (0 <? tier)%Z then 0 else 1))%nat).
Proof.
  intros Hk Ht.
  assert (Hhead :
    legit_arrival params self load l g
    = bind (draw_has_fee tier) (fun has_fee =>
        r <- call_controller params ("legit_" +:+ pretty k) tier has_fee
               load ;;
        record_legit self r.1) l g2).
  { unfold legit_arrival.
    rewrite (bind_eq _ _ _ _ _ _ _ (draw_eq _ l _ _ _ Hk)).
    rewrite (bind_eq _ _ _ _ _ _ _ (draw_eq _ l _ _ _ Ht)).
    reflexivity. }
  split; [|split].
  - intros Htier.
    assert (Hfee : draw_has_fee tier l g2 = Ok (true, l, g2)).
    { unfold draw_has_fee. destruct (Z.ltb_spec 0 tier); [reflexivity | lia]. }
    split; [exact Hfee|].
    rewrite Hhead. unfold bind at 1. rewrite Hfee. reflexivity.
  - intros Htier u g3 Hu.
    assert (Hfee : draw_has_fee tier l g2 = Ok ((u <? 0.3)%float, l, g3)).
    { unfold draw_has_fee. destruct (Z.ltb_spec 0 tier); [lia|].
      rewrite (bind_eq _ _ _ _ _ _ _ (draw_eq _ l _ _ _ Hu)). reflexivity. }
    split; [exact Hfee|].
    rewrite Hhead. unfold bind at 1. rewrite Hfee. reflexivity.
  - intros n b l' c'. unfold draw_has_fee.
    destruct (0 <? tier); intros Hd; inv_M.
    + simpl. lia.
    + match goal with Hc : rng_random _ = Ok _ |- _ =>
        simpl in Hc; unfold Counting.counted in Hc; simpl in Hc;
        destruct (rng_random g2) as [[u g3]|e|]; try discriminate;
        injection Hc as _ <- end.
      simpl. lia.
Qed.
End fee_draw.

Lemma fee_draw_short_circuits_witness :
  DoSSimulator.draw_has_fee 1
    (DoSSimulator.initial_locals default_controller.1) 465823161
  = Ok (true, DoSSimulator.initial_locals default_controller.1, 465823161).
Proof.
  refine (proj1 (proj1 (fee_draw_short_circuits config.DOS_PARAMS
            default_simulator.1 0
            (DoSSimulator.initial_locals default_controller.1)
            3 _ _ _ 1 _ _) _)).
  - vm_compute. reflexivity.
  - vm_compute. reflexivity.
  - lia.
Defined.

(** ** Construction *)

Section construction.
Context {G : Type} `{RandomSource G}.

(** C5, as amended.  Neither constructor validates its configuration:
    [AdmissionController(...)] and [DoSSimulator(...)] succeed for every
    capacity, rate limit and legitimate rate and store them as given, and
    the thresholds are not looked at.  A zero [rate_limit_per_sec] is met
    mid-run, as a [ZeroDivisionError] at the first rate-limit check of an
    identity seen before; a zero [capacity_tps] in the first time step, as
    a [ZeroDivisionError] when the load fraction is computed. *)
Theorem construction_validates_nothing :
  (forall capacity rate (g : G),
     AdmissionController.init capacity rate (Some g)
     = ({| AdmissionController.capacity_tps := capacity;
           AdmissionController.rate_limit := rate;
           AdmissionController.identity_buckets := ∅;
           AdmissionController.identity_last_access := ∅;
           AdmissionController.current_load := 0 |}, g)) /\
  (forall capacity tps seed,
     DoSSimulator.init (G := G) capacity tps seed
     = ({| DoSSimulator.capacity_tps := capacity;
           DoSSimulator.legitimate_tps := tps |}, config.get_rng seed)) /\
  (forall params identity tier has_fee timestamp load self (g g2 : G) last s,
     AdmissionController.rate_limit self = 0 ->
     AdmissionController.identity_last_access self !! identity = Some last ->
     AdmissionController.mode_gate
       (AdmissionController.get_congestion_mode params load) tier has_fee
       self g = Ok (None, s, g2) ->
     AdmissionController.admit_transaction params identity tier has_fee
       timestamp load self g = Raise ZeroDivisionError) /\
  (forall params self time_step_s lr ar l (g g1 g2 : G) nl na tot,
     DoSSimulator.capacity_tps self = 0 ->
     rng_poisson lr g = Ok (nl, g1) ->
     rng_poisson ar g1 = Ok (na, g2) ->
     to_float (DoSSimulator.queue_depth l + Z.of_N nl + Z.of_N na) = Ok tot ->
     DoSSimulator.time_step params self time_step_s lr ar l g
     = Raise ZeroDivisionError).
Proof.
  split; [reflexivity|]. split; [reflexivity|]. split.
  - intros params identity tier has_fee timestamp load self g g2 last s
      Hrate Hlast Hgate.
    unfold AdmissionController.admit_transaction.
    rewrite (bind_eq _ _ _ _ _ _ _ Hgate).
    pose proof (mode_gate_Ok _ _ _ _ _ _ _ _ Hgate) as [-> _].
    unfold bind at 1. unfold AdmissionController.rate_limit_gate.
    unfold bind at 1. unfold get. rewrite Hlast, Hrate. reflexivity.
  - intros params self time_step_s lr ar l g g1 g2 nl na tot
      Hcap Hnl Hna Htot.
    unfold DoSSimulator.time_step.
    rewrite (bind_eq _ _ _ _ _ _ _ (draw_eq _ l _ _ _ Hnl)).
    rewrite (bind_eq _ _ _ _ _ _ _ (draw_eq _ l _ _ _ Hna)).
    unfold bind at 1. unfold get.
    unfold bind at 1. unfold lift at 1. rewrite Htot.
    unfold bind at 1. unfold lift at 1. unfold truediv at 1.
    destruct (time_step_s =? 0)%float; [reflexivity|].
    rewrite Hcap. reflexivity.
Qed.
End construction.

(** The claim of C5 as worded fails.  A controller is constructed with
    [rate_limit_per_sec = 0]; its first call is admitted and its second
    call for the same identity raises [ZeroDivisionError].  A simulator is
    constructed with [capacity_tps = 0] and its run raises in the first
    time step.  With thresholds in decreasing order construction and the
    whole run succeed. *)
Lemma invalid_configuration_found_mid_run :
  AdmissionController.rate_limit
    (AdmissionController.init (G := Z) 15000 0 (Some 7)).1 = 0 /\
  (exists self1 g1,
     AdmissionController.admit_transaction config.DOS_PARAMS "alice" 2 true
       0 0 (AdmissionController.init 15000 0 (Some 7)).1 7
       = Ok ((true, "admitted"), self1, g1) /\
     AdmissionController.admit_transaction config.DOS_PARAMS "alice" 2 true
       1 0 self1 g1 = Raise ZeroDivisionError) /\
  DoSSimulator.capacity_tps
    (DoSSimulator.init (G := Z) 0 config.implied_avg_tps 42).1 = 0 /\
  DoSSimulator.simulate_scenario config.DOS_PARAMS largest 10
    (DoSSimulator.init (G := Z) 0 config.implied_avg_tps 42).1 baseline
    0.01 1 (DoSSimulator.init (G := Z) 0 config.implied_avg_tps 42).2
  = Raise ZeroDivisionError /\
  (exists r g',
     DoSSimulator.simulate_scenario
       {| config.target_tps := 15000;
          config.tier0_daily_quota := 10;
          config.tier1_daily_quota := 50;
          config.rate_limit_per_sec := 5;
          config.elevated_threshold := 0.95;
          config.high_threshold := 0.80;
          config.critical_threshold := 0.60 |}
       largest 10 default_simulator.1 baseline 0.003 1 default_simulator.2
     = Ok (r, g')).
Proof.
  split; [reflexivity|]. split.
  { eexists _, _. split; vm_compute; reflexivity. }
  split; [reflexivity|]. split; [vm_compute; reflexivity|].
  eexists _, _. vm_compute. reflexivity.
Qed.

(** ** The iteration budget *)

Section budget.
Context {G : Type} `{RandomSource G}.
Variable params : config.DoSParams.
Variable self : DoSSimulator.t.
Variable duration_s : float.
Variable time_step_s : float.
Import DoSSimulator.

Implicit Types (l : locals) (g : G).

(** A completed pass advances the clock by one step and nothing else
    touches it. *)
Lemma time_step_clock lr ar l g log l' g' :
  time_step params self time_step_s lr ar l g = Ok (log, l', g') ->
  current_time l' = (current_time l + time_step_s)%float.
Proof.
  intros Hs. apply time_step_Ok in Hs.
  destruct Hs as (load & us & l1 & g1 & l2 & g2 & l3 & g3
                  & Hlegit & Hattack & Hdrain & Htick).
  apply drain_Ok in Hdrain. destruct Hdrain as (c & k & _ & _ & -> & _).
  apply tick_Ok in Htick. destruct Htick as [-> _]. simpl. f_equal.
  transitivity (current_time l1).
  - eapply (for_range_preserves _
              (fun s => current_time s = current_time l1));
      [|exact Hattack|reflexivity].
    intros s g0 a s' g0' Hs Hb. apply attack_arrival_Ok in Hb.
    destruct Hb as (c0 & _ & _ & _ & Hc & _). simpl in Hc. congruence.
  - eapply (for_range_preserves _
              (fun s => current_time s = current_time l));
      [|exact Hlegit|reflexivity].
    intros s g0 [] s' g0' Hs Hb. apply legit_arrival_Ok in Hb.
    destruct Hb as (c0 & _ & Hc & _). simpl in Hc. congruence.
Qed.

Lemma while_loop_done fuel lr ar l g :
  (current_time l <? duration_s)%float = false ->
  while_loop params self duration_s time_step_s fuel lr ar l g
  = Ok ([], l, g).
Proof. intros Hc. destruct fuel; simpl; rewrite Hc; reflexivity. Qed.

(** Once the budget covers the passes the clock asks for, a larger budget
    changes nothing: the outcome is the program's. *)
Lemma while_loop_budget fuel extra lr ar l g done n :
  passes fuel duration_s time_step_s (current_time l) done = Some n ->
  while_loop params self duration_s time_step_s (fuel + extra) lr ar l g
  = while_loop params self duration_s time_step_s fuel lr ar l g.
Proof.
  revert l g done. induction fuel as [|fuel IH]; intros l g done Hp.
  - simpl in Hp.
    destruct (current_time l <? duration_s)%float eqn:Hc; [discriminate|].
    rewrite !while_loop_done by exact Hc. reflexivity.
  - simpl in Hp. simpl.
    destruct (current_time l <? duration_s)%float eqn:Hc; [|reflexivity].
    unfold bind at 1 3.
    destruct (time_step params self time_step_s lr ar l g)
      as [[[log l'] g']|e|] eqn:Hs; try reflexivity.
    apply time_step_clock in Hs. rewrite <- Hs in Hp.
    unfold bind. rewrite (IH l' g' _ Hp). reflexivity.
Qed.
End budget.

(** The default run ([duration_s = 1000.0], [time_step_ms = 1.0]) makes
    1,000,001 passes: the clock, summed in binary64, is still below 1000
    after a million steps. *)
Lemma default_run_passes :
  passes (N.to_nat 1000001) 1000 (1.0 / 1000.0) 0 0 = Some 1000001%N.
Proof. vm_compute. reflexivity. Qed.

(** ** Concrete runs *)

Lemma queue_depth_invariant_witness :
  exists logs l g',
    DoSSimulator.run config.DOS_PARAMS default_simulator.1 moderate_spam
      0.01 0.001 100 default_simulator.2 = Ok (logs, l, g') /\
    0 <= DoSSimulator.queue_depth l <= DoSSimulator.max_queue.
Proof.
  eexists _, _, _. split; [vm_compute; reflexivity|].
  refine (proj2 (proj2 (proj2 (proj2
            (queue_depth_invariant config.DOS_PARAMS default_simulator.1
               moderate_spam 0.01 0.001 _ _)))
            100%nat default_simulator.2 _ _ _ _)).
  - vm_compute. discriminate.
  - vm_compute. reflexivity.
  - vm_compute. reflexivity.
Defined.

(** The claim of C3 as worded, for every run, fails: nothing stops a
    simulator from being built with a negative [capacity_tps], and then the
    per-step service [int(capacity_tps * time_step_s)] is negative, so that
    the drain, subtracting [min(depth, service)], adds to the depth and puts
    it above the buffer size.  One pass with [capacity_tps = -15000], no
    arrivals and a step of 10000 s ([time_step_ms = 10000000]) ends the
    run at a depth of 150,000,000. *)
Lemma negative_capacity_exceeds_buffer :
  exists logs l g',
    DoSSimulator.run config.DOS_PARAMS
      (DoSSimulator.init (G := Z) (-15000) 0 42).1 baseline 1 10000 10
      (DoSSimulator.init (G := Z) (-15000) 0 42).2 = Ok (logs, l, g') /\
    length logs = 1%nat /\
    DoSSimulator.queue_depth l = 150000000 /\
    ~ (0 <= DoSSimulator.queue_depth l <= 100000) /\
    DoSSimulator.simulate_scenario config.DOS_PARAMS largest 10
      (DoSSimulator.init (G := Z) (-15000) 0 42).1 baseline 1 10000000
      (DoSSimulator.init (G := Z) (-15000) 0 42).2
    = Ok (DoSSimulator.result_of largest
            (DoSSimulator.init (G := Z) (-15000) 0 42).1 baseline 1 l, g').
Proof.
  eexists _, _, _. split; [vm_compute; reflexivity|].
  split; [reflexivity|]. split; [reflexivity|].
  split; [cbn; lia|].
  vm_compute. reflexivity.
Qed.

(** A negative time step does the same with the default capacity: the
    first drain of the run leaves a depth of 150,000,000. *)
Lemma negative_time_step_exceeds_buffer :
  exists l,
    visits (G := Z) config.DOS_PARAMS default_simulator.1 (-10000) l /\
    DoSSimulator.queue_depth l = 150000000.
Proof.
  eexists. split.
  - eapply (visits_drain (G := Z) _ _ _ _ 0);
      [apply (visits_start _ _ _ default_controller.1)|].
    vm_compute. reflexivity.
  - reflexivity.
Qed.

Lemma legitimate_arrivals_conserved_witness :
  exists r g',
    DoSSimulator.simulate_scenario config.DOS_PARAMS largest 100
      default_simulator.1 moderate_spam 0.01 1 default_simulator.2
      = Ok (r, g') /\
    legit_arrivals
      (match DoSSimulator.run config.DOS_PARAMS default_simulator.1
               moderate_spam 0.01 (1 / 1000) 100 default_simulator.2 with
       | Ok (logs, _, _) => logs
       | _ => []
       end) = 2 /\
    exists logs l,
      DoSSimulator.run config.DOS_PARAMS default_simulator.1 moderate_spam
        0.01 (1 / 1000) 100 default_simulator.2 = Ok (logs, l, g') /\
      r = DoSSimulator.result_of largest default_simulator.1 moderate_spam
            0.01 l /\
      DoSResult.legitimate_admitted r + DoSResult.legitimate_dropped r
        = legit_arrivals logs.
Proof.
  eexists _, _. split; [vm_compute; reflexivity|].
  split; [vm_compute; reflexivity|].
  apply (proj2 (proj2 (legitimate_arrivals_conserved config.DOS_PARAMS
           largest default_simulator.1 moderate_spam 0.01))).
  vm_compute. reflexivity.
Defined.

Lemma attack_arrivals_accounted_witness :
  exists r g',
    DoSSimulator.simulate_scenario config.DOS_PARAMS largest 100
      default_simulator.1 throttled_spam 0.01 1 default_simulator.2
      = Ok (r, g') /\
    attack_arrivals
      (match DoSSimulator.run config.DOS_PARAMS default_simulator.1
               throttled_spam 0.01 (1 / 1000) 100 default_simulator.2 with
       | Ok (logs, _, _) => logs
       | _ => []
       end) = 80 /\
    attacks_admitted
      (match DoSSimulator.run config.DOS_PARAMS default_simulator.1
               throttled_spam 0.01 (1 / 1000) 100 default_simulator.2 with
       | Ok (logs, _, _) => logs
       | _ => []
       end) = 58 /\
    DoSResult.attack_filtered r = 22 /\
    exists logs l a,
      DoSSimulator.run config.DOS_PARAMS default_simulator.1 throttled_spam
        0.01 (1 / 1000) 100 default_simulator.2 = Ok (logs, l, g') /\
      r = DoSSimulator.result_of largest default_simulator.1 throttled_spam
            0.01 l /\
      to_float (DoSScenario.attack_tps throttled_spam) = Ok a /\
      pass_chain config.DOS_PARAMS default_simulator.1 0.01 (1 / 1000)
        (DoSSimulator.legitimate_tps default_simulator.1 * (1 / 1000))
        (a * (1 / 1000))
        (DoSSimulator.initial_locals
           (AdmissionController.init
              (DoSSimulator.capacity_tps default_simulator.1)
              DoSSimulator.default_rate_limit
              (Some default_simulator.2)).1)
        default_simulator.2 logs l g' /\
      DoSResult.attack_filtered r + attacks_admitted logs
        = attack_arrivals logs.
Proof.
  eexists _, _. split; [vm_compute; reflexivity|].
  split; [vm_compute; reflexivity|].
  split; [vm_compute; reflexivity|].
  split; [vm_compute; reflexivity|].
  apply (proj2 (proj2 (attack_arrivals_accounted config.DOS_PARAMS
           largest default_simulator.1 throttled_spam 0.01))).
  vm_compute. reflexivity.
Defined.

(** The claim of C10 as worded fails in its word "only": an admitted attack
    arrival changes the queue depth and also the controller, which records
    the arrival's identity with the current time, as it does on every
    admission.  The first attack arrival of a run at no load is admitted;
    afterwards the controller holds an identity it did not hold before, and
    is not the controller it was. *)
Lemma admitted_attack_recorded_by_controller :
  exists k g1 l' g',
    rng_integers 10000000 default_controller.2 = Ok (k, g1) /\
    DoSSimulator.attack_arrival config.DOS_PARAMS 0
      (DoSSimulator.initial_locals default_controller.1)
      default_controller.2 = Ok (true, l', g') /\
    DoSSimulator.queue_depth l' = 1 /\
    AdmissionController.identity_last_access default_controller.1
      !! ("attack_" +:+ pretty k) = None /\
    AdmissionController.identity_last_access (DoSSimulator.controller l')
      !! ("attack_" +:+ pretty k) = Some 0%float /\
    DoSSimulator.controller l'
      <> DoSSimulator.controller
           (DoSSimulator.initial_locals default_controller.1).
Proof.
  eexists _, _, _, _.
  split; [vm_compute; reflexivity|].
  split; [vm_compute; reflexivity|].
  split; [vm_compute; reflexivity|].
  split; [vm_compute; reflexivity|].
  split; [vm_compute; reflexivity|].
  vm_compute. discriminate.
Qed.

Lemma p99_of_recorded_latencies_witness :
  exists logs l g',
    DoSSimulator.run config.DOS_PARAMS default_simulator.1 moderate_spam
      0.003 (1 / 1000) 100 default_simulator.2 = Ok (logs, l, g') /\
    DoSSimulator.legitimate_latencies_ms l = [] /\
    DoSSimulator.simulate_scenario config.DOS_PARAMS largest 100
      default_simulator.1 moderate_spam 0.003 1 default_simulator.2
      = Ok (DoSSimulator.result_of largest default_simulator.1 moderate_spam
              0.003 l, g') /\
    DoSResult.legitimate_p99_ms
      (DoSSimulator.result_of largest default_simulator.1 moderate_spam
         0.003 l) = 0%float.
Proof.
  eexists _, _, _. split; [vm_compute; reflexivity|].
  split; [reflexivity|].
  edestruct (p99_of_recorded_latencies config.DOS_PARAMS largest
               default_simulator.1 moderate_spam 0.003 100 1
               default_simulator.2) as (Hret & Hzero & _);
    [|split; [exact Hret | apply Hzero; reflexivity]].
  vm_compute. reflexivity.
Defined.

(** * Further properties of the controller and of the simulator *)

(** ** Vocabulary *)

(** The congestion modes in the order of their severity. *)
Definition severity (mode : string) : nat :=
  if String.eqb mode "normal" then 0
  else if String.eqb mode "elevated" then 1
  else if String.eqb mode "high" then 2
  else 3.

(** ** More on the order of binary64 *)

Lemma SFleb_ltb_ltb x y z :
  SFleb x y = true -> SFltb y z = true -> SFltb x z = true.
Proof.
  unfold SFleb, SFltb.
  destruct x as [sx|sx| |sx mx ex], y as [sy|sy| |sy my ey],
    z as [sz|sz| |sz mz ez]; sf_cases.
Qed.

Lemma SFltb_leb x y : SFltb x y = true -> SFleb x y = true.
Proof.
  unfold SFleb, SFltb.
  destruct x as [sx|sx| |sx mx ex], y as [sy|sy| |sy my ey]; sf_cases.
Qed.

Lemma SFltb_not_nan_l x y : SFltb x y = true -> x <> S754_nan.
Proof. intros Hlt ->. discriminate Hlt. Qed.

Lemma SFltb_not_nan_r x y : SFltb x y = true -> y <> S754_nan.
Proof. intros Hlt ->. destruct x; discriminate Hlt. Qed.

Lemma SFnot_ltb_leb x y :
  x <> S754_nan -> y <> S754_nan -> SFltb x y = false -> SFleb y x = true.
Proof.
  unfold SFleb, SFltb.
  destruct x as [sx|sx| |sx mx ex], y as [sy|sy| |sy my ey];
    intros Hx Hy; try congruence; clear Hx Hy; sf_cases.
Qed.

Lemma float_leb_ltb_ltb (x y z : float) :
  (x <=? y)%float = true -> (y <? z)%float = true -> (x <? z)%float = true.
Proof. rewrite FloatAxioms.leb_spec, !ltb_spec. apply SFleb_ltb_ltb. Qed.

Lemma float_ltb_leb (x y : float) :
  (x <? y)%float = true -> (x <=? y)%float = true.
Proof. rewrite FloatAxioms.leb_spec, ltb_spec. apply SFltb_leb. Qed.

(** [x < y] false between two floats that each take part in a true
    comparison (so neither is a NaN) means [y <= x]. *)
Lemma float_not_ltb_leb (x y a b : float) :
  (x <? a)%float = true -> (y <? b)%float = true ->
  (x <? y)%float = false -> (y <=? x)%float = true.
Proof.
  rewrite FloatAxioms.leb_spec, !ltb_spec. intros Hx Hy.
  apply SFnot_ltb_leb;
    [eapply SFltb_not_nan_l, Hx | eapply SFltb_not_nan_l, Hy].
Qed.

Lemma float_not_ltb_trans (x h c : float) :
  (x <? c)%float = false -> (h <? c)%float = true -> (x <? h)%float = false.
Proof.
  intros Hxc Hhc. destruct (x <? h)%float eqn:Hxh; [|reflexivity].
  rewrite (float_ltb_trans _ _ _ Hxh Hhc) in Hxc. discriminate.
Qed.

(** ** The congestion mode *)

Section congestion_mode.
Variable params : config.DoSParams.
Import AdmissionController.

Local Abbreviation elevated := (config.elevated_threshold params).
Local Abbreviation high := (config.high_threshold params).
Local Abbreviation critical := (config.critical_threshold params).

(** X1.  [get_congestion_mode] never reports a milder mode for a larger
    load: if [load1 <= load2] then the mode of [load1] is at most as severe
    as the mode of [load2], whatever the three thresholds are. *)
Theorem congestion_mode_monotone load1 load2 :
  (load1 <=? load2)%float = true ->
  (severity (get_congestion_mode params load1)
   <= severity (get_congestion_mode params load2))%nat.
Proof.
  intros Hle. unfold get_congestion_mode.
  destruct (load2 <? elevated)%float eqn:H2e.
  { rewrite (float_leb_ltb_ltb _ _ _ Hle H2e). apply le_n. }
  destruct (load2 <? high)%float eqn:H2h.
  { rewrite (float_leb_ltb_ltb _ _ _ Hle H2h).
    destruct (load1 <? elevated)%float; vm_compute; lia. }
  destruct (load2 <? critical)%float eqn:H2c.
  { rewrite (float_leb_ltb_ltb _ _ _ Hle H2c).
    destruct (load1 <? elevated)%float, (load1 <? high)%float; vm_compute; lia. }
  destruct (load1 <? elevated)%float, (load1 <? high)%float,
    (load1 <? critical)%float; vm_compute; lia.
Qed.

(** X2.  With strictly increasing thresholds the four modes are the four
    bands of the load: normal below the elevated threshold, elevated from
    it up to the high threshold, high from that up to the critical
    threshold, and critical for everything else, which is every load at or
    above the critical threshold and also a NaN load. *)
Theorem congestion_mode_bands load :
  (elevated <? high)%float = true ->
  (high <? critical)%float = true ->
  (get_congestion_mode params load = "normal"
   <-> (load <? elevated)%float = true) /\
  (get_congestion_mode params load = "elevated"
   <-> (elevated <=? load)%float = true /\ (load <? high)%float = true) /\
  (get_congestion_mode params load = "high"
   <-> (high <=? load)%float = true /\ (load <? critical)%float = true) /\
  (get_congestion_mode params load = "critical"
   <-> (load <? critical)%float = false) /\
  ((load =? load)%float = false ->
   get_congestion_mode params load = "critical").
Proof.
  intros Heh Hhc. unfold get_congestion_mode.
  destruct (load <? elevated)%float eqn:Hle.
  { pose proof (float_ltb_trans _ _ _ Hle Heh) as Hlh.
    pose proof (float_ltb_trans _ _ _ Hlh Hhc) as Hlc.
    repeat split; try discriminate; try tauto.
    - intros [Hel _]. rewrite (float_leb_not_ltb _ _ Hel) in Hle.
      discriminate.
    - intros [Hhl _]. rewrite (float_leb_not_ltb _ _ Hhl) in Hlh.
      discriminate.
    - intros Hc. rewrite Hc in Hlc. discriminate.
    - intros Hnan. exfalso. revert Hle Hnan.
      rewrite ltb_spec, FloatAxioms.eqb_spec. unfold SFltb, SFeqb.
      destruct (Prim2SF load) as [s|s| |s m e],
        (Prim2SF elevated) as [s'|s'| |s' m' e']; sf_cases. }
  destruct (load <? high)%float eqn:Hlh.
  { pose proof (float_ltb_trans _ _ _ Hlh Hhc) as Hlc.
    pose proof (float_not_ltb_leb _ _ _ _ Hlh Heh Hle) as Hel.
    repeat split; try discriminate; try tauto.
    - intros [Hhl _]. rewrite (float_leb_not_ltb _ _ Hhl) in Hlh.
      discriminate.
    - intros Hc. rewrite Hc in Hlc. discriminate.
    - intros Hnan. exfalso. revert Hlh Hnan.
      rewrite ltb_spec, FloatAxioms.eqb_spec. unfold SFltb, SFeqb.
      destruct (Prim2SF load) as [s|s| |s m e],
        (Prim2SF high) as [s'|s'| |s' m' e']; sf_cases. }
  destruct (load <? critical)%float eqn:Hlc.
  { pose proof (float_not_ltb_leb _ _ _ _ Hlc Hhc Hlh) as Hhl.
    repeat split; try discriminate; try tauto.
    - intros [_ Hc]. discriminate.
    - intros Hnan. exfalso. revert Hlc Hnan.
      rewrite ltb_spec, FloatAxioms.eqb_spec. unfold SFltb, SFeqb.
      destruct (Prim2SF load) as [s|s| |s m e],
        (Prim2SF critical) as [s'|s'| |s' m' e']; sf_cases. }
  repeat split; try discriminate; try tauto.
  - intros [_ Hc]. discriminate.
  - intros [_ Hc]. discriminate.
Qed.
End congestion_mode.

(** ** More on [admit_transaction] *)

Section controller_extras.
Context {G : Type} `{RandomSource G}.
Variable params : config.DoSParams.
Import AdmissionController.

Implicit Types (self : AdmissionController.t) (g : G).

Local Abbreviation elevated := (config.elevated_threshold params).
Local Abbreviation high := (config.high_threshold params).
Local Abbreviation critical := (config.critical_threshold params).

Lemma get_congestion_mode_high load :
  (elevated <? high)%float = true ->
  (high <=? load)%float = true ->
  (load <? critical)%float = true ->
  get_congestion_mode params load = "high".
Proof.
  intros Heh Hhl Hlc. unfold get_congestion_mode.
  rewrite (float_leb_ltb_trans _ _ _ Hhl Heh).
  rewrite (float_leb_not_ltb _ _ Hhl), Hlc. reflexivity.
Qed.

Lemma get_congestion_mode_elevated load :
  (elevated <=? load)%float = true ->
  (load <? high)%float = true ->
  get_congestion_mode params load = "elevated".
Proof.
  intros Hel Hlh. unfold get_congestion_mode.
  rewrite (float_leb_not_ltb _ _ Hel), Hlh. reflexivity.
Qed.

(** The calls on which the mode gate takes no draw pass the generator on
    as it was. *)
Lemma mode_gate_no_draw mode tier has_fee self g r self' g' :
  mode <> "elevated" \/ tier <> 0 \/ has_fee = true ->
  mode_gate mode tier has_fee self g = Ok (r, self', g') -> g' = g.
Proof.
  unfold mode_gate. intros Hno Hg.
  destruct (String.eqb mode "critical");
    [|destruct (String.eqb mode "high");
      [|destruct (String.eqb_spec mode "elevated")]].
  - destruct ((tier <? 2) || negb has_fee); inv_M; reflexivity.
  - destruct (tier =? 0); [|destruct (negb has_fee)]; inv_M; reflexivity.
  - destruct (Z.eqb_spec tier 0); simpl in Hg.
    + destruct has_fee; simpl in Hg; [inv_M; reflexivity|].
      exfalso. destruct Hno as [Hm | [Ht | Hf]]; congruence.
    + inv_M. reflexivity.
  - inv_M. reflexivity.
Qed.

(** X3.  In high mode (strictly increasing thresholds, load from the high
    threshold up to the critical one) a tier-0 transaction is rejected with
    ["tier0_suspended"] and a transaction of another tier without a fee
    with ["fee_required"], whatever the identity's history and without
    touching the controller or the generator; with a fee, tiers other than
    0 pass the mode gate and go on to the rate-limit check. *)
Theorem high_mode_gate identity tier has_fee timestamp load self g :
  (elevated <? high)%float = true ->
  (high <=? load)%float = true ->
  (load <? critical)%float = true ->
  (tier = 0 ->
   admit_transaction params identity tier has_fee timestamp load self g
   = Ok ((false, "tier0_suspended"), self, g)) /\
  (tier <> 0 -> has_fee = false ->
   admit_transaction params identity tier has_fee timestamp load self g
   = Ok ((false, "fee_required"), self, g)) /\
  (tier <> 0 -> has_fee = true ->
   mode_gate (get_congestion_mode params load) tier has_fee self g
   = Ok (None, self, g)).
Proof.
  intros Heh Hhl Hlc. unfold admit_transaction.
  rewrite (get_congestion_mode_high _ Heh Hhl Hlc).
  unfold mode_gate. simpl String.eqb. cbv iota.
  split; [|split].
  - intros ->. reflexivity.
  - intros Ht ->. apply Z.eqb_neq in Ht. rewrite Ht. reflexivity.
  - intros Ht ->. apply Z.eqb_neq in Ht. rewrite Ht. reflexivity.
Qed.

(** X4.  In elevated mode a tier-0 transaction without a fee costs exactly
    one [random()] draw [u]: it is rejected with ["tier0_throttled"] when
    [u < 0.5], the controller unchanged, and passes the mode gate
    otherwise; any other transaction passes the gate without a draw. *)
Theorem elevated_mode_throttle identity tier has_fee timestamp load self g :
  (elevated <=? load)%float = true ->
  (load <? high)%float = true ->
  (tier = 0 -> has_fee = false ->
   forall u g1, rng_random g = Ok (u, g1) ->
   ((u <? 0.5)%float = true ->
    admit_transaction params identity tier has_fee timestamp load self g
    = Ok ((false, "tier0_throttled"), self, g1)) /\
   ((u <? 0.5)%float = false ->
    mode_gate (get_congestion_mode params load) tier has_fee self g
    = Ok (None, self, g1))) /\
  (tier <> 0 \/ has_fee = true ->
   mode_gate (get_congestion_mode params load) tier has_fee self g
   = Ok (None, self, g)).
Proof.
  intros Hel Hlh. unfold admit_transaction.
  rewrite (get_congestion_mode_elevated _ Hel Hlh).
  unfold mode_gate. simpl String.eqb. cbv iota.
  split.
  - intros -> -> u g1 Hu. simpl. unfold bind, draw. rewrite Hu.
    split; intros ->; reflexivity.
  - intros [Ht | ->].
    + apply Z.eqb_neq in Ht. rewrite Ht. reflexivity.
    + rewrite andb_false_r. reflexivity.
Qed.

(** X5.  The throttle is the only place where the controller draws: a
    returning call leaves the generator exactly as it found it unless the
    mode is elevated and the transaction is tier 0 without a fee. *)
Theorem admit_transaction_draws_only_to_throttle identity tier has_fee
    timestamp load self g r self' g' :
  get_congestion_mode params load <> "elevated" \/ tier <> 0
    \/ has_fee = true ->
  admit_transaction params identity tier has_fee timestamp load self g
    = Ok (r, self', g') ->
  g' = g.
Proof.
  intros Hno Ha. unfold admit_transaction in Ha.
  apply bind_Ok in Ha. destruct Ha as (gate & s1 & g1 & Hg & Ha).
  pose proof (mode_gate_no_draw _ _ _ _ _ _ _ _ Hno Hg) as ->.
  destruct gate as [r0|]; [inv_M; reflexivity|].
  apply bind_Ok in Ha. destruct Ha as (lim & s2 & g2 & Hl & Ha).
  apply rate_limit_gate_Ok in Hl. destruct Hl as (-> & -> & [-> | ->]);
    cbv beta iota in Ha; inv_M; reflexivity.
Qed.

(** X6.  An identity the controller has not recorded is admitted as soon
    as it passes the mode gate, and is recorded with the call's timestamp.
    No division takes place on this path, so this holds for every
    [rate_limit], zero included.  In normal mode, in particular, every
    first call of an identity is admitted. *)
Theorem unknown_identity_admitted identity tier has_fee timestamp load
    self g :
  identity_last_access self !! identity = None ->
  (forall s g1,
     mode_gate (get_congestion_mode params load) tier has_fee self g
       = Ok (None, s, g1) ->
     admit_transaction params identity tier has_fee timestamp load self g
     = Ok ((true, "admitted"),
           set_identity_last_access
             (<[identity := timestamp]> (identity_last_access self)) self,
           g1)) /\
  ((load <? elevated)%float = true ->
   admit_transaction params identity tier has_fee timestamp load self g
   = Ok ((true, "admitted"),
         set_identity_last_access
           (<[identity := timestamp]> (identity_last_access self)) self,
         g)).
Proof.
  intros Hnew.
  assert (Hpass : forall s g1,
    mode_gate (get_congestion_mode params load) tier has_fee self g
      = Ok (None, s, g1) ->
    admit_transaction params identity tier has_fee timestamp load self g
    = Ok ((true, "admitted"),
          set_identity_last_access
            (<[identity := timestamp]> (identity_last_access self)) self,
          g1)).
  { intros s g1 Hg. unfold admit_transaction.
    rewrite (bind_eq _ _ _ _ _ _ _ Hg).
    pose proof (mode_gate_Ok _ _ _ _ _ _ _ _ Hg) as [-> _].
    unfold rate_limit_gate, bind, get. rewrite Hnew. reflexivity. }
  split; [exact Hpass|].
  intros Hn. apply (Hpass self). unfold get_congestion_mode.
  rewrite Hn. reflexivity.
Qed.

(** X7.  Once the rate-limit window has passed, a recorded identity is
    admitted again: if the time since its recorded access is not below
    [1/rate_limit] and the call passes the mode gate, it returns
    [(True, "admitted")] and the recorded time becomes the call's
    timestamp. *)
Theorem window_passed_admitted identity tier has_fee timestamp load
    self g last rf w s g1 :
  identity_last_access self !! identity = Some last ->
  to_float (rate_limit self) = Ok rf ->
  truediv 1 rf = Ok w ->
  (timestamp - last <? w)%float = false ->
  mode_gate (get_congestion_mode params load) tier has_fee self g
    = Ok (None, s, g1) ->
  admit_transaction params identity tier has_fee timestamp load self g
  = Ok ((true, "admitted"),
        set_identity_last_access
          (<[identity := timestamp]> (identity_last_access self)) self,
        g1)
  /\ identity_last_access
       (set_identity_last_access
          (<[identity := timestamp]> (identity_last_access self)) self)
     !! identity = Some timestamp.
Proof.
  intros Hlast Hrf Hw Hlt Hg. split; [|apply lookup_insert_eq].
  unfold admit_transaction.
  rewrite (bind_eq _ _ _ _ _ _ _ Hg).
  pose proof (mode_gate_Ok _ _ _ _ _ _ _ _ Hg) as [-> _].
  unfold rate_limit_gate, bind, get. rewrite Hlast.
  unfold lift. rewrite Hrf, Hw, Hlt. reflexivity.
Qed.

(** X8.  A call touches no identity but its own: whatever it returns, the
    recorded time of every other identity is as before, no identity is
    ever forgotten, and the configuration fields are unchanged. *)
Theorem admit_transaction_frame identity tier has_fee timestamp load
    self g r self' g' :
  admit_transaction params identity tier has_fee timestamp load self g
    = Ok (r, self', g') ->
  (forall other, other <> identity ->
     identity_last_access self' !! other
     = identity_last_access self !! other) /\
  (forall other, is_Some (identity_last_access self !! other) ->
     is_Some (identity_last_access self' !! other)) /\
  capacity_tps self' = capacity_tps self /\
  rate_limit self' = rate_limit self.
Proof.
  intros Ha. destruct r as [b reason]. apply admit_transaction_Ok in Ha.
  destruct Ha as [(_ & _ & ->) | (_ & _ & ->)]; simpl.
  - repeat split; auto.
    + intros other Hne. apply lookup_insert_ne. congruence.
    + intros other Hsome. destruct (decide (other = identity)) as [->|Hne].
      * rewrite lookup_insert_eq. eauto.
      * rewrite lookup_insert_ne by congruence. exact Hsome.
  - repeat split; auto.
Qed.
End controller_extras.

(** ** More on the runs of the simulator *)

(** The right operand of a true [<=] is not a NaN: it equals itself. *)
Lemma float_leb_self (a x : float) :
  (a <=? x)%float = true -> (x =? x)%float = true.
Proof.
  rewrite FloatAxioms.leb_spec, FloatAxioms.eqb_spec. unfold SFleb, SFeqb.
  destruct (Prim2SF a) as [sa|sa| |sa ma ea],
    (Prim2SF x) as [s|s| |s m e]; sf_cases.
Qed.

Lemma max_floor x : (100 <=? Py.max 100 x)%float = true.
Proof.
  unfold Py.max. destruct (100 <? x)%float eqn:Hx.
  - apply float_ltb_leb, Hx.
  - reflexivity.
Qed.

Section run_extras.
Context {G : Type} `{RandomSource G}.
Variable params : config.DoSParams.
Variable percentile : list float -> float -> float.
Variable self : DoSSimulator.t.
Variable scenario : DoSScenario.t.
Variable duration_s : float.
Import DoSSimulator.

Implicit Types (l : locals) (g : G).

Local Abbreviation visits ts := (visits (G := G) params self ts).
Local Abbreviation run ts :=
  (DoSSimulator.run params self scenario duration_s ts).
Local Abbreviation result_of :=
  (DoSSimulator.result_of percentile self scenario duration_s).
Local Abbreviation simulate_scenario fuel :=
  (DoSSimulator.simulate_scenario params percentile fuel self scenario
     duration_s).

(** The sample a legitimate arrival appends, if any, is floored at 100. *)
Lemma legit_arrival_sample load l g u l' g' :
  legit_arrival params self load l g = Ok (u, l', g') ->
  legitimate_latencies_ms l' = legitimate_latencies_ms l
  \/ exists t,
       legitimate_latencies_ms l'
       = legitimate_latencies_ms l ++ [Py.max 100 t].
Proof.
  unfold legit_arrival. intros Hl.
  apply bind_Ok in Hl. destruct Hl as (k & l1 & g1 & Hk & Hl).
  apply bind_Ok in Hl. destruct Hl as (tier & l2 & g2 & Ht & Hl).
  apply bind_Ok in Hl. destruct Hl as (fee & l3 & g3 & Hf & Hl).
  apply bind_Ok in Hl. destruct Hl as (r & l4 & g4 & Ha & Hl).
  assert (l3 = l) as ->.
  { unfold draw_has_fee in Hf. destruct (0 <? tier); inv_M; reflexivity. }
  apply call_controller_Ok in Ha. destruct Ha as [c ->].
  unfold record_legit in Hl. destruct r.1.
  - apply bind_Ok in Hl. destruct Hl as (l0 & l5 & g5 & Hg & Hl).
    apply get_Ok in Hg. destruct Hg as (-> & -> & ->).
    destruct (queue_depth (set_controller c l) <? max_queue);
      inv_M; simpl; eauto.
  - inv_M. simpl. auto.
Qed.

Lemma visits_latency_floor ts l :
  visits ts l ->
  Forall (fun x => (100 <=? x)%float = true) (legitimate_latencies_ms l).
Proof.
  intros Hv.
  induction Hv as [c | load l g g' l' Hv IH Hl | load l g g' b l' Hv IH Ha
                   | l g g' l' Hv IH Hd | l g g' l' Hv IH Ht].
  - constructor.
  - apply legit_arrival_sample in Hl. destruct Hl as [-> | [t ->]];
      [exact IH|].
    apply Forall_app. split; [exact IH|].
    constructor; [apply max_floor | constructor].
  - apply attack_arrival_Ok in Ha.
    destruct Ha as (c & _ & _ & Hlat & _). simpl in Hlat.
    rewrite Hlat. exact IH.
  - apply drain_Ok in Hd. destruct Hd as (c & k & _ & _ & -> & _). exact IH.
  - apply tick_Ok in Ht. destruct Ht as [-> _]. exact IH.
Qed.

Lemma visits_counters_nonneg ts l :
  visits ts l ->
  0 <= legitimate_admitted l /\ 0 <= legitimate_dropped l
  /\ 0 <= attack_filtered l.
Proof.
  intros Hv.
  induction Hv as [c | load l g g' l' Hv IH Hl | load l g g' b l' Hv IH Ha
                   | l g g' l' Hv IH Hd | l g g' l' Hv IH Ht].
  - simpl. lia.
  - apply legit_arrival_Ok in Hl.
    destruct Hl as (c & Hf & _ & [Hin | Hout]); simpl in *; lia.
  - apply attack_arrival_Ok in Ha.
    destruct Ha as (c & Hadm & Hd & _ & _ & Hb). simpl in *.
    destruct b; lia.
  - apply drain_Ok in Hd. destruct Hd as (c & k & _ & _ & -> & _). exact IH.
  - apply tick_Ok in Ht. destruct Ht as [-> _]. exact IH.
Qed.

Lemma admitted_count_nonneg flags : 0 <= admitted_count flags.
Proof. unfold admitted_count. lia. Qed.

Lemma attacks_admitted_nonneg logs : 0 <= attacks_admitted logs.
Proof.
  unfold attacks_admitted. induction logs as [|s logs IH]; simpl; [lia|].
  pose proof (admitted_count_nonneg (attack_admitted s)). lia.
Qed.

(** X9.  Every latency sample a run records is at least 100 ms (so it is
    never a NaN either): the floor [max(100, total_latency)] holds for all
    samples of the final list, whatever the jitter drawn. *)
Theorem latency_samples_floored ts fuel g logs l g' :
  run ts fuel g = Ok (logs, l, g') ->
  Forall (fun x => (100 <=? x)%float = true /\ (x =? x)%float = true)
    (legitimate_latencies_ms l).
Proof.
  intros Hr. apply run_visits, visits_latency_floor in Hr.
  eapply Forall_impl; [exact Hr|]. intros x Hx. cbv beta in Hx.
  split; [exact Hx | eapply float_leb_self, Hx].
Qed.

(** X10.  In the result of every run the three counters are not negative,
    there is one latency sample per admitted legitimate arrival, no more
    legitimate arrivals are admitted than were generated, and no more
    attack arrivals are filtered than were generated. *)
Theorem result_counters_bounded fuel time_step_ms g r g' :
  simulate_scenario fuel time_step_ms g = Ok (r, g') ->
  exists logs l,
    run (time_step_ms / 1000) fuel g = Ok (logs, l, g') /\
    0 <= DoSResult.legitimate_admitted r <= legit_arrivals logs /\
    0 <= DoSResult.legitimate_dropped r <= legit_arrivals logs /\
    0 <= DoSResult.attack_filtered r <= attack_arrivals logs /\
    Z.of_nat (length (legitimate_latencies_ms l))
      = DoSResult.legitimate_admitted r.
Proof.
  intros Hs. apply simulate_scenario_Ok in Hs.
  destruct Hs as (logs & l & Hr & ->). exists logs, l.
  split; [exact Hr|].
  pose proof (run_counts _ _ _ _ _ _ _ _ _ _ Hr) as [Hlegit Hattack].
  pose proof (run_visits _ _ _ _ _ _ _ _ _ _ Hr) as Hv.
  pose proof (visits_counters_nonneg _ _ Hv) as (Ha & Hd & Hf).
  pose proof (visits_latencies _ _ _ _ Hv) as Hlen.
  pose proof (attacks_admitted_nonneg logs).
  simpl. repeat split; try lia.
Qed.
End run_extras.

(** ** Arrivals under load *)

Section arrivals_under_load.
Context {G : Type} `{RandomSource G}.
Variable params : config.DoSParams.
Variable self : DoSSimulator.t.
Import DoSSimulator.

Implicit Types (l : locals) (g : G).

Local Abbreviation elevated := (config.elevated_threshold params).
Local Abbreviation high := (config.high_threshold params).
Local Abbreviation critical := (config.critical_threshold params).

(** At or above the high threshold a tier-0 transaction without a fee is
    rejected by the mode gate, in high mode and in critical mode alike. *)
Lemma tier0_rejected_from_high identity timestamp load
    (c : AdmissionController.t) g :
  (elevated <? high)%float = true ->
  (high <=? load)%float = true ->
  AdmissionController.admit_transaction params identity 0 false timestamp
    load c g
  = Ok ((false, if (load <? critical)%float then "tier0_suspended"
                else "critical_mode_rejection"), c, g).
Proof.
  intros Heh Hhl.
  unfold AdmissionController.admit_transaction,
    AdmissionController.get_congestion_mode.
  rewrite (float_leb_ltb_trans _ _ _ Hhl Heh).
  rewrite (float_leb_not_ltb _ _ Hhl).
  destruct (load <? critical)%float; reflexivity.
Qed.

(** X11.  While the load fraction is at or above the high threshold, no
    attack arrival gets in: each one is rejected, counted in
    [attack_filtered], leaves the queue depth and the controller's
    identity state untouched, and costs the one draw of its identity. *)
Theorem attack_filtered_from_high_load load l g admitted l' g' :
  (elevated <? high)%float = true ->
  (high <=? load)%float = true ->
  attack_arrival params load l g = Ok (admitted, l', g') ->
  admitted = false /\
  attack_filtered l' = attack_filtered l + 1 /\
  queue_depth l' = queue_depth l /\
  controller l' = controller l /\
  exists k, rng_integers 10000000 g = Ok (k, g').
Proof.
  intros Heh Hhl Ha. unfold attack_arrival in Ha.
  apply bind_Ok in Ha. destruct Ha as (k & l1 & g1 & Hk & Ha).
  apply draw_Ok in Hk. destruct Hk as [Hk ->].
  apply bind_Ok in Ha. destruct Ha as (r & l2 & g2 & Hr & Ha).
  unfold call_controller in Hr.
  apply bind_Ok in Hr. destruct Hr as (l0 & l3 & g3 & Hg & Hr).
  apply get_Ok in Hg. destruct Hg as (-> & -> & ->).
  apply zoom_Ok in Hr. destruct Hr as (c & Hr & ->).
  rewrite (tier0_rejected_from_high _ _ _ _ _ Heh Hhl) in Hr.
  injection Hr as <- <- <-. simpl in Ha. unfold record_attack in Ha.
  inv_M. simpl. repeat split; eauto.
Qed.

(** X12.  A transaction of tier 2 or 3 with a fee is never stopped by a
    congestion rule, whatever the load and the thresholds: the mode gate
    lets it through without a draw, so the only rejection it can meet is
    the rate limit of an identity already recorded. *)
Theorem priority_only_rate_limited identity tier timestamp load
    (c : AdmissionController.t) g :
  2 <= tier ->
  AdmissionController.mode_gate
    (AdmissionController.get_congestion_mode params load) tier true c g
  = Ok (None, c, g) /\
  (forall b reason c' g',
     AdmissionController.admit_transaction params identity tier true
       timestamp load c g = Ok ((b, reason), c', g') ->
     (b = true /\ reason = "admitted") \/
     (b = false /\ reason = "rate_limited" /\
      is_Some (AdmissionController.identity_last_access c !! identity))).
Proof.
  intros Htier.
  assert (Hgate : AdmissionController.mode_gate
    (AdmissionController.get_congestion_mode params load) tier true c g
    = Ok (None, c, g)).
  { unfold AdmissionController.get_congestion_mode,
      AdmissionController.mode_gate.
    assert ((tier <? 2) = false) as Hlt by (apply Z.ltb_ge; lia).
    assert ((tier =? 0) = false) as Hz by (apply Z.eqb_neq; lia).
    destruct (load <? elevated)%float; [reflexivity|].
    destruct (load <? high)%float; [simpl; rewrite Hz; reflexivity|].
    destruct (load <? critical)%float; simpl.
    - rewrite Hz. reflexivity.
    - rewrite Hlt. reflexivity. }
  split; [exact Hgate|].
  intros b reason c' g' Ha.
  unfold AdmissionController.admit_transaction in Ha.
  rewrite (bind_eq _ _ _ _ _ _ _ Hgate) in Ha.
  apply bind_Ok in Ha. destruct Ha as (lim & s2 & g2 & Hl & Ha).
  assert (Hknown : lim = Some (false, "rate_limited") ->
    is_Some (AdmissionController.identity_last_access c !! identity)).
  { intros ->. unfold AdmissionController.rate_limit_gate in Hl.
    apply bind_Ok in Hl. destruct Hl as (c0 & s3 & g3 & Hg & Hl).
    apply get_Ok in Hg. destruct Hg as (-> & -> & ->).
    destruct (AdmissionController.identity_last_access c !! identity);
      [eauto | inv_M; discriminate]. }
  apply rate_limit_gate_Ok in Hl. destruct Hl as (-> & -> & [-> | ->]);
    cbv beta iota in Ha; inv_M;
    match goal with Hp : (_, _) = (_, _) |- _ =>
      injection Hp as ? ?; subst end; auto.
Qed.
End arrivals_under_load.

(** ** The number of time steps *)

Section steps.
Context {G : Type} `{RandomSource G}.
Variable params : config.DoSParams.
Variable self : DoSSimulator.t.
Variable scenario : DoSScenario.t.
Variable duration_s : float.
Variable time_step_s : float.
Import DoSSimulator.

Implicit Types (l : locals) (g : G).

Lemma while_loop_passes fuel lr ar l g logs l' g' done :
  while_loop params self duration_s time_step_s fuel lr ar l g
    = Ok (logs, l', g') ->
  passes fuel duration_s time_step_s (current_time l) done
    = Some (done + N.of_nat (length logs))%N
  /\ (current_time l' <? duration_s)%float = false.
Proof.
  revert l g logs done. induction fuel as [|fuel IH];
    intros l g logs done Hw; simpl in *;
    destruct (current_time l <? duration_s)%float eqn:Hc;
    try discriminate.
  - injection Hw as <- <- _. simpl. rewrite N.add_0_r. auto.
  - apply bind_Ok in Hw. destruct Hw as (log & l1 & g1 & Hs & Hw).
    apply bind_Ok in Hw. destruct Hw as (rest & l2 & g2 & Hr & Hw).
    inv_M. apply time_step_clock in Hs. rewrite <- Hs.
    destruct (IH _ _ _ (N.succ done) Hr) as [-> Hend].
    split; [|exact Hend]. f_equal. simpl length. lia.
  - injection Hw as <- <- _. simpl. rewrite N.add_0_r. auto.
Qed.

(** X13.  The number of time steps of a completed run is decided by the
    clock alone: it is the number of times [current_time], starting at 0
    and advanced by [time_step_s] in binary64, stays below [duration_s],
    whatever the traffic drawn; and the run ends with [current_time] not
    below [duration_s]. *)
Theorem steps_decided_by_clock fuel g logs l g' :
  run params self scenario duration_s time_step_s fuel g
    = Ok (logs, l, g') ->
  passes fuel duration_s time_step_s 0 0 = Some (N.of_nat (length logs))
  /\ (current_time l <? duration_s)%float = false.
Proof.
  intros Hr. apply run_Ok in Hr. destruct Hr as (c & lr & ar & Hw).
  apply (while_loop_passes _ _ _ _ _ _ _ _ 0%N) in Hw. exact Hw.
Qed.
End steps.

(** ** The drop rate *)

Section drop_rate.
Context {G : Type} `{RandomSource G}.
Variable params : config.DoSParams.
Variable percentile : list float -> float -> float.
Variable self : DoSSimulator.t.
Variable scenario : DoSScenario.t.
Variable duration_s : float.

(** X14.  [drop_rate] of the result of a run never divides by zero: when
    the run generated no legitimate arrival it is [0.0], and otherwise the
    denominator [legitimate_admitted + legitimate_dropped] is the positive
    number of arrivals. *)
Theorem drop_rate_defined fuel time_step_ms (g : G) r g' :
  DoSSimulator.simulate_scenario params percentile fuel self scenario
    duration_s time_step_ms g = Ok (r, g') ->
  DoSResult.drop_rate r <> Raise ZeroDivisionError /\
  exists logs l,
    DoSSimulator.run params self scenario duration_s (time_step_ms / 1000)
      fuel g = Ok (logs, l, g') /\
    (legit_arrivals logs = 0 -> DoSResult.drop_rate r = Ok 0%float) /\
    (legit_arrivals logs <> 0 ->
     DoSResult.drop_rate r
     = int_truediv (DoSResult.legitimate_dropped r) (legit_arrivals logs)
     /\ 0 < legit_arrivals logs).
Proof.
  intros Hs.
  assert (Hnz : DoSResult.drop_rate r <> Raise ZeroDivisionError).
  { unfold DoSResult.drop_rate, int_truediv. cbv zeta.
    destruct (_ + _ =? 0) eqn:Hz; [discriminate|]. try rewrite Hz.
    destruct (to_float (DoSResult.legitimate_dropped r)),
      (to_float (DoSResult.legitimate_admitted r
                 + DoSResult.legitimate_dropped r)); discriminate. }
  split; [exact Hnz|].
  apply simulate_scenario_Ok in Hs. destruct Hs as (logs & l & Hr & ->).
  exists logs, l. split; [exact Hr|].
  pose proof (run_counts _ _ _ _ _ _ _ _ _ _ Hr) as [Hlegit _].
  pose proof (run_visits _ _ _ _ _ _ _ _ _ _ Hr) as Hv.
  pose proof (visits_counters_nonneg _ _ _ _ Hv) as (Ha & Hd & _).
  unfold DoSResult.drop_rate. simpl. rewrite Hlegit. split.
  - intros ->. reflexivity.
  - intros Hne. apply Z.eqb_neq in Hne as Hb. rewrite Hb.
    split; [reflexivity | lia].
Qed.
End drop_rate.

(** ** The number of draws per arrival *)

Section draw_counts.
Context {G : Type} `{RandomSource G}.
Variable params : config.DoSParams.
Variable self : DoSSimulator.t.
Import DoSSimulator.

Implicit Types (l : locals) (c : G * nat).

Lemma counted_Ok {A} (d : G -> outcome (A * G)) c a c' :
  Counting.counted d c = Ok (a, c') -> c'.2 = S c.2.
Proof.
  unfold Counting.counted.
  destruct (d c.1) as [[v g']|e|]; intros [= <- <-]. reflexivity.
Qed.

Lemma mode_gate_count mode tier has_fee (s : AdmissionController.t) c r s' c' :
  AdmissionController.mode_gate mode tier has_fee s c = Ok (r, s', c') ->
  c'.2 = c.2 \/ (c'.2 = S c.2 /\ mode = "elevated").
Proof.
  unfold AdmissionController.mode_gate. intros Hg.
  destruct (String.eqb mode "critical");
    [|destruct (String.eqb mode "high");
      [|destruct (String.eqb_spec mode "elevated")]].
  - destruct ((tier <? 2) || negb has_fee); inv_M; auto.
  - destruct (tier =? 0); [|destruct (negb has_fee)]; inv_M; auto.
  - destruct ((tier =? 0) && negb has_fee); [|inv_M; auto].
    apply bind_Ok in Hg. destruct Hg as (u & s1 & c1 & Hu & Hg).
    apply draw_Ok in Hu. destruct Hu as [Hu ->].
    apply counted_Ok in Hu.
    destruct (u <? 0.5)%float; inv_M; auto.
  - inv_M. auto.
Qed.

Lemma admit_transaction_count identity tier has_fee timestamp load
    (s : AdmissionController.t) c r s' c' :
  AdmissionController.admit_transaction params identity tier has_fee
    timestamp load s c = Ok (r, s', c') ->
  c'.2 = c.2
  \/ (c'.2 = S c.2
      /\ AdmissionController.get_congestion_mode params load = "elevated").
Proof.
  unfold AdmissionController.admit_transaction. intros Ha.
  apply bind_Ok in Ha. destruct Ha as (gate & s1 & c1 & Hg & Ha).
  apply mode_gate_count in Hg.
  assert (c' = c1) as ->; [|exact Hg].
  destruct gate as [r0|]; [inv_M; reflexivity|].
  apply bind_Ok in Ha. destruct Ha as (lim & s2 & c2 & Hl & Ha).
  apply rate_limit_gate_Ok in Hl. destruct Hl as (-> & -> & [-> | ->]);
    cbv beta iota in Ha; inv_M; reflexivity.
Qed.

Lemma call_controller_count identity tier has_fee load l c r l' c' :
  call_controller params identity tier has_fee load l c = Ok (r, l', c') ->
  c'.2 = c.2
  \/ (c'.2 = S c.2
      /\ AdmissionController.get_congestion_mode params load = "elevated").
Proof.
  unfold call_controller. intros Hc.
  apply bind_Ok in Hc. destruct Hc as (l0 & l1 & c1 & Hg & Hc).
  apply get_Ok in Hg. destruct Hg as (-> & -> & ->).
  apply zoom_Ok in Hc. destruct Hc as (t & Hc & _).
  apply admit_transaction_count in Hc. exact Hc.
Qed.

Lemma record_legit_count admitted l c u l' c' :
  record_legit self admitted l c = Ok (u, l', c') ->
  c'.2 = c.2 \/ c'.2 = S c.2.
Proof.
  unfold record_legit. intros Hr. destruct admitted; [|inv_M; auto].
  apply bind_Ok in Hr. destruct Hr as (l0 & l1 & c1 & Hg & Hr).
  apply get_Ok in Hg. destruct Hg as (-> & -> & ->).
  destruct (queue_depth l <? max_queue); [|inv_M; auto].
  apply bind_Ok in Hr. destruct Hr as (u1 & l2 & c2 & H1 & Hr).
  apply modify_Ok in H1. destruct H1 as [-> ->].
  apply bind_Ok in Hr. destruct Hr as (u2 & l3 & c3 & H2 & Hr).
  apply modify_Ok in H2. destruct H2 as [-> ->].
  apply bind_Ok in Hr. destruct Hr as (l4 & l5 & c5 & H3 & Hr).
  apply get_Ok in H3. destruct H3 as (-> & -> & ->).
  apply bind_Ok in Hr. destruct Hr as (q & l6 & c6 & H4 & Hr).
  apply lift_Ok in H4. destruct H4 as (_ & -> & ->).
  apply bind_Ok in Hr. destruct Hr as (j & l7 & c7 & H5 & Hr).
  apply draw_Ok in H5. destruct H5 as [H5 ->]. apply counted_Ok in H5.
  apply modify_Ok in Hr. destruct Hr as [_ ->]. auto.
Qed.

(** X15.  Counted on a generator that counts its draws: an attack arrival
    takes one draw (its identity), and a second one only in elevated mode
    (the throttle); a legitimate arrival takes between two and five
    (identity and tier, then the fee draw for tier 0, the throttle, and
    the jitter of an admitted and buffered arrival). *)
Theorem draws_per_arrival :
  (forall load l c admitted l' c',
     attack_arrival (G := G * nat) params load l c = Ok (admitted, l', c') ->
     c'.2 = (c.2 + 1)%nat
     \/ (c'.2 = (c.2 + 2)%nat
         /\ AdmissionController.get_congestion_mode params load
            = "elevated")) /\
  (forall load l c u l' c',
     legit_arrival (G := G * nat) params self load l c = Ok (u, l', c') ->
     (c.2 + 2 <= c'.2 <= c.2 + 5)%nat).
Proof.
  split.
  - intros load l c admitted l' c' Ha. unfold attack_arrival in Ha.
    apply bind_Ok in Ha. destruct Ha as (k & l1 & c1 & Hk & Ha).
    apply draw_Ok in Hk. destruct Hk as [Hk ->]. apply counted_Ok in Hk.
    apply bind_Ok in Ha. destruct Ha as (r & l2 & c2 & Hr & Ha).
    apply call_controller_count in Hr.
    assert (c' = c2) as ->.
    { unfold record_attack in Ha. destruct r.1; inv_M; reflexivity. }
    destruct Hr as [Hr | [Hr Hm]]; [left | right; split; [|exact Hm]]; lia.
  - intros load l c u l' c' Hl. unfold legit_arrival in Hl.
    apply bind_Ok in Hl. destruct Hl as (k & l1 & c1 & Hk & Hl).
    apply draw_Ok in Hk. destruct Hk as [Hk ->]. apply counted_Ok in Hk.
    apply bind_Ok in Hl. destruct Hl as (tier & l2 & c2 & Ht & Hl).
    apply draw_Ok in Ht. destruct Ht as [Ht ->]. apply counted_Ok in Ht.
    apply bind_Ok in Hl. destruct Hl as (fee & l3 & c3 & Hf & Hl).
    assert (c3.2 = c2.2 \/ c3.2 = S c2.2) as Hfee.
    { unfold draw_has_fee in Hf. destruct (0 <? tier); [inv_M; auto|].
      apply bind_Ok in Hf. destruct Hf as (x & l4 & c4 & Hx & Hf).
      apply draw_Ok in Hx. destruct Hx as [Hx ->]. apply counted_Ok in Hx.
      inv_M. auto. }
    apply bind_Ok in Hl. destruct Hl as (r & l4 & c4 & Hr & Hl).
    apply call_controller_count in Hr.
    apply record_legit_count in Hl.
    destruct Hfee, Hr as [Hr | [Hr _]], Hl; lia.
Qed.
End draw_counts.

(** ** [config.py]: the BFT threshold check *)

(** [z < x] for an int and a float, which Python decides exactly (not by
    rounding the int): false against a NaN, by sign against an infinity,
    and otherwise on the integers [z * 2^-e] and [m * 2^e] of [x]. *)
Definition int_lt_float (z : Z) (x : float) : bool :=
  match Prim2SF x with
  | S754_nan => false
  | S754_infinity s => negb s
  | S754_zero _ => z <? 0
  | S754_finite s m e =>
      let v := if s then Z.neg m else Z.pos m in
      if 0 <=? e then z <? v * 2 ^ e else z * 2 ^ (- e) <? v
  end.

Module ConsensusParams.

Record t : Set := {
  n_validators : Z;
  byzantine_threshold : Z;
  epoch_duration_s : Z;
  block_time_ms : Z;
  message_delay_bound_ms : Z;
  clock_skew_bound_ms : Z;
}.

(** [ConsensusParams()]: the defaults of the dataclass. *)
Definition default : t := {|
  n_validators := 30;
  byzantine_threshold := 9;
  epoch_duration_s := 86400;
  block_time_ms := 500;
  message_delay_bound_ms := 500;
  clock_skew_bound_ms := 100;
|}.

(** [validate]: [self.byzantine_threshold < self.n_validators / 3], with
    [/] the true division of two ints. *)
Definition validate (self : t) : outcome bool :=
  match int_truediv (n_validators self) 3 with
  | Ok q => Ok (int_lt_float (byzantine_threshold self) q)
  | Raise e => Raise e
  | OutOfFuel => OutOfFuel
  end.

(** What the check is meant to decide, on the integers: with
    [c = ceil(n / 3)], the float quotient [n / 3] separates [c - 1] from
    [c]. *)
Definition separates (n : Z) : bool :=
  match int_truediv n 3 with
  | Ok q =>
      let c := (n + 2) / 3 in
      int_lt_float (c - 1) q && negb (int_lt_float c q)
  | _ => false
  end.

Definition max_checked : Z := 2000.

End ConsensusParams.

Lemma int_lt_float_antitone z1 z2 x :
  z1 <= z2 -> int_lt_float z2 x = true -> int_lt_float z1 x = true.
Proof.
  unfold int_lt_float. intros Hle.
  destruct (Prim2SF x) as [s|s| |s m e]; auto.
  - rewrite !Z.ltb_lt. lia.
  - destruct (0 <=? e); rewrite !Z.ltb_lt; [lia|].
    intros Hlt. eapply Z.le_lt_trans; [|exact Hlt].
    apply Z.mul_le_mono_nonneg_r; [apply Z.pow_nonneg; lia | exact Hle].
Qed.

Lemma separates_decides n f q :
  int_truediv n 3 = Ok q -> ConsensusParams.separates n = true ->
  int_lt_float f q = (3 * f <? n).
Proof.
  unfold ConsensusParams.separates. intros ->. cbv zeta.
  intros Hs. apply andb_prop in Hs. destruct Hs as [Hlo Hhi].
  apply negb_true_iff in Hhi.
  pose proof (Z.div_mod (n + 2) 3 ltac:(lia)) as Hdm.
  pose proof (Z.mod_pos_bound (n + 2) 3 ltac:(lia)) as Hmb.
  destruct (Z.ltb_spec (3 * f) n) as [Hlt | Hge].
  - apply (int_lt_float_antitone f ((n + 2) / 3 - 1)); [lia | exact Hlo].
  - destruct (int_lt_float f q) eqn:Hf; [|reflexivity].
    rewrite (int_lt_float_antitone ((n + 2) / 3) f q) in Hhi;
      [discriminate | lia | exact Hf].
Qed.

Lemma separates_checked :
  forallb ConsensusParams.separates
    (map Z.of_nat (seq 0 (S (Z.to_nat ConsensusParams.max_checked))))
  = true.
Proof. vm_compute. reflexivity. Qed.

(** X16.  For every validator count from 0 to 2000 and every threshold,
    [ConsensusParams.validate] returns [True] exactly when
    [3 * byzantine_threshold < n_validators]: dividing in binary64 before
    comparing loses nothing in this range. *)
Theorem validate_is_bft_bound (self : ConsensusParams.t) :
  0 <= ConsensusParams.n_validators self <= ConsensusParams.max_checked ->
  ConsensusParams.validate self
  = Ok (3 * ConsensusParams.byzantine_threshold self
        <? ConsensusParams.n_validators self).
Proof.
  intros Hn.
  pose proof separates_checked as Hall.
  rewrite forallb_forall in Hall.
  specialize (Hall (ConsensusParams.n_validators self)).
  assert (Hsep : ConsensusParams.separates
                   (ConsensusParams.n_validators self) = true).
  { apply Hall. apply in_map_iff.
    exists (Z.to_nat (ConsensusParams.n_validators self)).
    split; [lia|]. apply in_seq. lia. }
  unfold ConsensusParams.validate.
  destruct (int_truediv (ConsensusParams.n_validators self) 3)
    as [q|e|] eqn:Hq.
  - f_equal. apply (separates_decides _ _ _ Hq Hsep).
  - unfold ConsensusParams.separates in Hsep. rewrite Hq in Hsep.
    discriminate.
  - unfold ConsensusParams.separates in Hsep. rewrite Hq in Hsep.
    discriminate.
Qed.

Lemma validate_is_bft_bound_witness :
  ConsensusParams.validate ConsensusParams.default = Ok (3 * 9 <? 30).
Proof.
  apply (validate_is_bft_bound ConsensusParams.default).
  vm_compute. split; discriminate.
Defined.

(** ** Concrete instances of the further properties *)

Lemma congestion_mode_monotone_witness :
  (severity (AdmissionController.get_congestion_mode config.DOS_PARAMS 0.5)
   <= severity (AdmissionController.get_congestion_mode config.DOS_PARAMS 0.9))%nat.
Proof.
  apply (congestion_mode_monotone config.DOS_PARAMS 0.5 0.9).
  vm_compute. reflexivity.
Defined.

Lemma congestion_mode_bands_witness :
  AdmissionController.get_congestion_mode config.DOS_PARAMS 0.7 = "elevated"
  <-> (config.elevated_threshold config.DOS_PARAMS <=? 0.7)%float = true
      /\ (0.7 <? config.high_threshold config.DOS_PARAMS)%float = true.
Proof.
  refine (proj1 (proj2 (congestion_mode_bands config.DOS_PARAMS 0.7 _ _)));
    vm_compute; reflexivity.
Defined.

Lemma high_mode_gate_witness :
  AdmissionController.admit_transaction config.DOS_PARAMS "mallory" 0 false
    0 0.9 default_controller.1 default_controller.2
  = Ok ((false, "tier0_suspended"),
        default_controller.1, default_controller.2).
Proof.
  refine (proj1 (high_mode_gate config.DOS_PARAMS "mallory" 0 false 0 0.9
                   default_controller.1 default_controller.2 _ _ _) _);
    vm_compute; reflexivity.
Defined.

Lemma elevated_mode_throttle_witness :
  AdmissionController.admit_transaction config.DOS_PARAMS "mallory" 0 false
    0 0.7 default_controller.1 2
  = Ok ((false, "tier0_throttled"), default_controller.1, 59559187).
Proof.
  refine (proj1 (proj1 (elevated_mode_throttle config.DOS_PARAMS "mallory"
                          0 false 0 0.7 default_controller.1 2 _ _)
                   _ _ 0.027734407689422369%float 59559187 _) _);
    vm_compute; reflexivity.
Defined.

Lemma admit_transaction_draws_only_to_throttle_witness :
  default_controller.2 = default_controller.2.
Proof.
  refine (admit_transaction_draws_only_to_throttle config.DOS_PARAMS
            "alice" 2 true 0 0 default_controller.1 default_controller.2
            _ _ _ _ first_call_admitted).
  left. vm_compute. discriminate.
Defined.

Lemma unknown_identity_admitted_witness :
  AdmissionController.admit_transaction config.DOS_PARAMS "bob" 0 false
    3 0.25 default_controller.1 default_controller.2
  = Ok ((true, "admitted"),
        AdmissionController.set_identity_last_access
          (<["bob" := 3%float]>
             (AdmissionController.identity_last_access default_controller.1))
          default_controller.1,
        default_controller.2).
Proof.
  refine (proj2 (unknown_identity_admitted config.DOS_PARAMS "bob" 0 false
                   3 0.25 default_controller.1 default_controller.2 _) _);
    vm_compute; reflexivity.
Defined.

Lemma window_passed_admitted_witness :
  AdmissionController.identity_last_access
    (AdmissionController.set_identity_last_access
       (<["alice" := 1%float]>
          (AdmissionController.identity_last_access
             (AdmissionController.set_identity_last_access
                (<["alice" := 0%float]> ∅) default_controller.1)))
       (AdmissionController.set_identity_last_access
          (<["alice" := 0%float]> ∅) default_controller.1))
  !! "alice" = Some 1%float.
Proof.
  refine (proj2 (window_passed_admitted config.DOS_PARAMS "alice" 0 false
                   1 0
                   (AdmissionController.set_identity_last_access
                      (<["alice" := 0%float]> ∅) default_controller.1)
                   default_controller.2 0 5 (1 / 5)
                   (AdmissionController.set_identity_last_access
                      (<["alice" := 0%float]> ∅) default_controller.1)
                   default_controller.2 _ _ _ _ _));
    vm_compute; reflexivity.
Defined.

Lemma admit_transaction_frame_witness :
  AdmissionController.rate_limit
    (AdmissionController.set_identity_last_access
       (<["alice" := 0%float]> ∅) default_controller.1)
  = AdmissionController.rate_limit default_controller.1.
Proof.
  exact (proj2 (proj2 (proj2
           (admit_transaction_frame config.DOS_PARAMS "alice" 2 true 0 0
              default_controller.1 default_controller.2 _ _ _
              first_call_admitted)))).
Defined.

Lemma priority_only_rate_limited_witness :
  AdmissionController.mode_gate
    (AdmissionController.get_congestion_mode config.DOS_PARAMS 1) 3 true
    default_controller.1 default_controller.2
  = Ok (None, default_controller.1, default_controller.2).
Proof.
  refine (proj1 (priority_only_rate_limited config.DOS_PARAMS "alice" 3 0 1
                   default_controller.1 default_controller.2 _)).
  lia.
Defined.

Lemma latency_samples_floored_witness :
  exists logs l g',
    DoSSimulator.run config.DOS_PARAMS default_simulator.1 baseline
      0.02 0.001 100 default_simulator.2 = Ok (logs, l, g') /\
    length (DoSSimulator.legitimate_latencies_ms l) = 6%nat /\
    Forall (fun x => (100 <=? x)%float = true /\ (x =? x)%float = true)
      (DoSSimulator.legitimate_latencies_ms l).
Proof.
  eexists _, _, _. split; [vm_compute; reflexivity|].
  split; [reflexivity|].
  eapply (latency_samples_floored config.DOS_PARAMS default_simulator.1
            baseline 0.02 0.001 100 default_simulator.2).
  vm_compute. reflexivity.
Defined.

Lemma result_counters_bounded_witness :
  exists r g',
    DoSSimulator.simulate_scenario config.DOS_PARAMS largest 100
      default_simulator.1 light_spam 0.01 1 default_simulator.2
      = Ok (r, g') /\
    exists logs l,
      DoSSimulator.run config.DOS_PARAMS default_simulator.1 light_spam
        0.01 (1 / 1000) 100 default_simulator.2 = Ok (logs, l, g') /\
      0 <= DoSResult.legitimate_admitted r <= legit_arrivals logs /\
      0 <= DoSResult.legitimate_dropped r <= legit_arrivals logs /\
      0 <= DoSResult.attack_filtered r <= attack_arrivals logs /\
      Z.of_nat (length (DoSSimulator.legitimate_latencies_ms l))
        = DoSResult.legitimate_admitted r.
Proof.
  eexists _, _. split; [vm_compute; reflexivity|].
  apply (result_counters_bounded config.DOS_PARAMS largest
           default_simulator.1 light_spam 0.01).
  vm_compute. reflexivity.
Defined.

Lemma attack_filtered_from_high_load_witness :
  exists admitted l' g',
    DoSSimulator.attack_arrival config.DOS_PARAMS 1
      (DoSSimulator.initial_locals default_controller.1) 7
      = Ok (admitted, l', g') /\
    admitted = false /\
    DoSSimulator.attack_filtered l' = 0 + 1.
Proof.
  eexists _, _, _. split; [vm_compute; reflexivity|].
  edestruct (attack_filtered_from_high_load config.DOS_PARAMS 1
               (DoSSimulator.initial_locals default_controller.1) 7)
    as (Hb & Hf & _).
  - vm_compute. reflexivity.
  - vm_compute. reflexivity.
  - vm_compute. reflexivity.
  - split; [exact Hb | exact Hf].
Defined.

Lemma steps_decided_by_clock_witness :
  exists logs l g',
    DoSSimulator.run config.DOS_PARAMS default_simulator.1 moderate_spam
      0.01 0.001 100 default_simulator.2 = Ok (logs, l, g') /\
    length logs = 10%nat /\
    passes 100 0.01 0.001 0 0 = Some (N.of_nat (length logs)).
Proof.
  eexists _, _, _. split; [vm_compute; reflexivity|].
  split; [reflexivity|].
  edestruct (steps_decided_by_clock config.DOS_PARAMS default_simulator.1
               moderate_spam 0.01 0.001 100 default_simulator.2)
    as [Hp _].
  - vm_compute. reflexivity.
  - exact Hp.
Defined.

Lemma drop_rate_defined_witness :
  exists r g',
    DoSSimulator.simulate_scenario config.DOS_PARAMS largest 100
      default_simulator.1 moderate_spam 0.003 1 default_simulator.2
      = Ok (r, g') /\
    DoSResult.drop_rate r <> Raise ZeroDivisionError /\
    DoSResult.drop_rate r = Ok 0%float.
Proof.
  eexists _, _. split; [vm_compute; reflexivity|].
  edestruct (drop_rate_defined config.DOS_PARAMS largest
               default_simulator.1 moderate_spam 0.003 100 1
               default_simulator.2) as [Hnz _].
  - vm_compute. reflexivity.
  - split; [exact Hnz | reflexivity].
Defined.

Lemma draws_per_arrival_witness :
  exists admitted l' c',
    DoSSimulator.attack_arrival (G := Z * nat) config.DOS_PARAMS 1
      (DoSSimulator.initial_locals default_controller.1) (7, 0%nat)
      = Ok (admitted, l', c') /\
    c'.2 = 1%nat.
Proof.
  eexists _, _, _. split; [vm_compute; reflexivity|].
  edestruct (proj1 (draws_per_arrival config.DOS_PARAMS
                      default_simulator.1) 1%float
               (DoSSimulator.initial_locals default_controller.1)
               (7, 0%nat)) as [Hone | [Htwo Hmode]];
    [vm_compute; reflexivity | exact Hone | reflexivity].
Defined.

(** ** Degenerate durations and time steps *)

Section degenerate_runs.
Context {G : Type} `{RandomSource G}.
Variable params : config.DoSParams.
Variable percentile : list float -> float -> float.
Variable self : DoSSimulator.t.
Variable scenario : DoSScenario.t.
Import DoSSimulator.

(** X17.  A duration that is not above zero (zero, negative or NaN) gives
    the empty result without a single time step: for every iteration
    budget the call returns at once with the three counters at 0,
    [legitimate_p99_ms = 0.0] and the generator untouched (provided
    [attack_tps] converts to a float, as the rate computation before the
    loop needs). *)
Theorem empty_run fuel duration_s time_step_ms (g : G) a :
  (0 <? duration_s)%float = false ->
  to_float (DoSScenario.attack_tps scenario) = Ok a ->
  simulate_scenario params percentile fuel self scenario duration_s
    time_step_ms g
  = Ok ({| DoSResult.scenario := scenario;
           DoSResult.simulation_duration_s := duration_s;
           DoSResult.legitimate_offered_tps := legitimate_tps self;
           DoSResult.attack_offered_tps := DoSScenario.attack_tps scenario;
           DoSResult.legitimate_admitted := 0;
           DoSResult.legitimate_dropped := 0;
           DoSResult.attack_filtered := 0;
           DoSResult.legitimate_p99_ms := 0 |}, g).
Proof.
  intros Hd Ha. unfold simulate_scenario, run. simpl. rewrite Ha.
  rewrite while_loop_done by exact Hd. reflexivity.
Qed.

(** X18.  A zero time step does not loop forever: with a duration above
    zero, the first pass raises [ZeroDivisionError] when it divides the
    offered load by the step, as soon as its two Poisson draws have
    returned. *)
Theorem zero_time_step_raises fuel duration_s time_step_s (g g1 g2 : G)
    a nl na tot :
  (0 <? duration_s)%float = true ->
  (time_step_s =? 0)%float = true ->
  to_float (DoSScenario.attack_tps scenario) = Ok a ->
  rng_poisson (legitimate_tps self * time_step_s) g = Ok (nl, g1) ->
  rng_poisson (a * time_step_s) g1 = Ok (na, g2) ->
  to_float (0 + Z.of_N nl + Z.of_N na) = Ok tot ->
  run params self scenario duration_s time_step_s (S fuel) g
  = Raise ZeroDivisionError.
Proof.
  intros Hd Hts Ha Hnl Hna Htot. unfold run. simpl. rewrite Ha, Hd.
  unfold bind at 1. unfold time_step.
  rewrite (bind_eq _ _ _ _ _ _ _ (draw_eq _ _ _ _ _ Hnl)).
  rewrite (bind_eq _ _ _ _ _ _ _ (draw_eq _ _ _ _ _ Hna)).
  unfold bind at 1. unfold get.
  unfold bind at 1. unfold lift at 1. simpl queue_depth. rewrite Htot.
  unfold bind at 1. unfold lift at 1. unfold truediv at 1. rewrite Hts.
  reflexivity.
Qed.
End degenerate_runs.

Lemma empty_run_witness :
  DoSSimulator.simulate_scenario config.DOS_PARAMS largest 0
    default_simulator.1 moderate_spam 0 1 default_simulator.2
  = Ok ({| DoSResult.scenario := moderate_spam;
           DoSResult.simulation_duration_s := 0;
           DoSResult.legitimate_offered_tps :=
             DoSSimulator.legitimate_tps default_simulator.1;
           DoSResult.attack_offered_tps := 50000;
           DoSResult.legitimate_admitted := 0;
           DoSResult.legitimate_dropped := 0;
           DoSResult.attack_filtered := 0;
           DoSResult.legitimate_p99_ms := 0 |}, default_simulator.2).
Proof.
  apply (empty_run config.DOS_PARAMS largest default_simulator.1
           moderate_spam 0 0 1 default_simulator.2 50000).
  - vm_compute. reflexivity.
  - vm_compute. reflexivity.
Defined.

Lemma zero_time_step_raises_witness :
  DoSSimulator.run config.DOS_PARAMS default_simulator.1 moderate_spam
    1 0 1 default_simulator.2 = Raise ZeroDivisionError.
Proof.
  eapply (zero_time_step_raises config.DOS_PARAMS default_simulator.1
            moderate_spam 0 1 0 default_simulator.2).
  - vm_compute. reflexivity.
  - vm_compute. reflexivity.
  - vm_compute. reflexivity.
  - vm_compute. reflexivity.
  - vm_compute. reflexivity.
  - vm_compute. reflexivity.
Defined.
